(** * app.py: the four-stage prompt pipeline, embedded and verified

    The program chains an OCR pass and four calls to a chat-completion
    service.  The embedding keeps the shape of the Python source:

    - a Python [str] is a list of Unicode code points;
    - the OCR engine and the completion service are the two external
      collaborators: every call to one of them is recorded in a trace,
      and what they answer is given by a [runtime] record;
    - [raise]/[try]/[except] are an error monad over that trace;
    - an f-string is the list of its constant and formatted parts, as in
      Python's own syntax tree (JoinedStr of Constant and FormattedValue).
*)

From Stdlib Require Import List NArith ZArith Bool String Ascii DecimalString Lia.
From Stdlib Require Import Floats.PrimFloat.
Import ListNotations.

Set Implicit Arguments.
Set Warnings "-inexact-float".

(* ================================================================== *)
(** ** Python strings *)
(* ================================================================== *)

(** A [str] value: its code points, in order. *)
Abbreviation codepoint := N (only parsing).
Abbreviation pystr := (list N) (only parsing).

(** An ASCII literal of the source, as a [str]. *)
Definition lit (s : string) : pystr :=
  List.map N_of_ascii (list_ascii_of_string s).

Definition nl : string := String (ascii_of_nat 10) EmptyString.
Definition dq : string := String (ascii_of_nat 34) EmptyString.

(** The lines of a literal that spans several source lines. *)
Definition lines (ls : list string) : pystr := lit (String.concat nl ls).

Fixpoint startswith (s prefix : pystr) {struct prefix} : bool :=
  match prefix, s with
  | [], _ => true
  | p :: prefix', c :: s' => N.eqb p c && startswith s' prefix'
  | _ :: _, [] => false
  end.

(** Python's [needle in hay]. *)
Fixpoint contains (hay needle : pystr) : bool :=
  startswith hay needle ||
  match hay with
  | [] => false
  | _ :: hay' => contains hay' needle
  end.

(** [str.isspace] on one code point (the characters [str.strip] removes). *)
Definition isspace (c : codepoint) : bool :=
  ((9 <=? c) && (c <=? 13) || (28 <=? c) && (c <=? 32) ||
   (c =? 133) || (c =? 160) || (c =? 5760) ||
   (8192 <=? c) && (c <=? 8202) || (c =? 8232) || (c =? 8233) ||
   (c =? 8239) || (c =? 8287) || (c =? 12288))%N.

Fixpoint lstrip (s : pystr) : pystr :=
  match s with
  | c :: s' => if isspace c then lstrip s' else s
  | [] => []
  end.

Definition rstrip (s : pystr) : pystr := rev (lstrip (rev s)).

Definition strip (s : pystr) : pystr := rstrip (lstrip s).

(* ================================================================== *)
(** ** Values handed to the stages *)
(* ================================================================== *)

(** What a text box or a drop-down hands over: a [str], or [None] when
    nothing is selected. *)
Inductive pytext :=
| PyNone
| PyStr (s : pystr).

(** Truth value, as [if x] and [not x] test it. *)
Definition truthy (v : pytext) : bool :=
  match v with
  | PyNone => false
  | PyStr [] => false
  | PyStr (_ :: _) => true
  end.

(** [format(v)], what a replacement field of an f-string inserts. *)
Definition format (v : pytext) : pystr :=
  match v with
  | PyNone => lit "None"
  | PyStr s => s
  end.

(** A numpy array: its shape and its flattened elements. *)
Record ndarray := { shape : list N; elements : list N }.

Definition size (a : ndarray) : N := fold_right N.mul 1%N (shape a).

(** A PIL image: its dimensions, its number of bands and its bytes. *)
Record pil_image := { width : N; height : N; bands : N; pixels : list N }.

(** The values the [screen] argument can take. *)
Inductive screen_value :=
| ScreenNone
| ScreenStr (path : pystr)
| ScreenArray (a : ndarray)
| ScreenImage (im : pil_image).

(** [np.array(screen)]. *)
Definition np_array (screen : screen_value) : ndarray :=
  match screen with
  | ScreenArray a => a
  | ScreenImage im =>
      {| shape := if (bands im <=? 1)%N then [height im; width im]
                  else [height im; width im; bands im];
         elements := pixels im |}
  | ScreenNone | ScreenStr _ => {| shape := []; elements := [] |}
  end.

(** One OCR detection: [(bbox, text, conf)]. *)
Definition polygon := list (Z * Z).
Definition detection := (polygon * pystr * float)%type.

(** [{"component": text, "bounding_box": bbox}]. *)
Record ui_element := { component : pystr; bounding_box : polygon }.

(* ================================================================== *)
(** ** Exceptions, external calls and the trace *)
(* ================================================================== *)

(** Classes of the exceptions ([Exception] instances) the program meets.
    [OpenAIError] stands for that class and its subclasses. *)
Inductive exn_class :=
| OpenAIError
| IndexError
| AttributeError
| TypeError
| OtherException.

(** An exception [e]: its class and [str(e)]. *)
Record exn := { exn_class_of : exn_class; exn_str : pystr }.

Definition isinstance_OpenAIError (e : exn) : bool :=
  match exn_class_of e with
  | OpenAIError => true
  | _ => false
  end.

Inductive result (A : Type) :=
| Return (a : A)
| Raise (e : exn).
Arguments Return {A} a.
Arguments Raise {A} e.

(** A chat message and the request of [openai.chat.completions.create]. *)
Record message := { role : pystr; content : pystr }.
Record request := { model : pystr; messages : list message }.

(** The part of the response the program reads:
    [response.choices[i].message.content], which may be [None]. *)
Record response := { choices : list (option pystr) }.

(** Calls that leave the program. *)
Inductive event :=
| Readtext (image : ndarray)
| ChatCompletion (req : request).

Definition trace := list event.

(** What the outside world answers.  The answer may depend on the calls
    made so far: the completion service is not deterministic. *)
Record runtime := {
  reader_readtext : trace -> ndarray -> result (list detection);
  chat_completions_create : trace -> request -> result response;
  (** [str()] of a non-empty list of element dicts. *)
  repr_elements : list ui_element -> pystr
}.

(** Computations: run from a trace, give a result and the longer trace. *)
Definition M (A : Type) := trace -> result A * trace.

Definition ret {A} (a : A) : M A := fun t => (Return a, t).

Definition raise {A} (e : exn) : M A := fun t => (Raise e, t).

Definition bind {A B} (m : M A) (k : A -> M B) : M B :=
  fun t =>
    match m t with
    | (Return a, t') => k a t'
    | (Raise e, t') => (Raise e, t')
    end.

(** [try: body  except ... as e: handler e]. *)
Definition try_except {A} (body : M A) (handler : exn -> M A) : M A :=
  fun t =>
    match body t with
    | (Return a, t') => (Return a, t')
    | (Raise e, t') => handler e t'
    end.

Definition lift {A} (r : result A) : M A := fun t => (r, t).

Declare Scope py_scope.
Delimit Scope py_scope with py.
Notation "x <- m ;; k" := (bind m (fun x => k))
  (at level 61, m at next level, right associativity) : py_scope.
Local Open Scope py_scope.

(** [reader.readtext(image)]. *)
Definition readtext (rt : runtime) (image : ndarray) : M (list detection) :=
  fun t => (reader_readtext rt t image, t ++ [Readtext image]).

(** [openai.chat.completions.create(model=..., messages=...)]. *)
Definition create (rt : runtime) (req : request) : M response :=
  fun t => (chat_completions_create rt t req, t ++ [ChatCompletion req]).

(* ================================================================== *)
(** ** Detection: [extract_ui_elements] *)
(* ================================================================== *)

(** [screen is None or isinstance(screen, str) or
     (isinstance(screen, np.ndarray) and screen.size == 0)]. *)
Definition no_image (screen : screen_value) : bool :=
  match screen with
  | ScreenNone => true
  | ScreenStr _ => true
  | ScreenArray a => (size a =? 0)%N
  | ScreenImage _ => false
  end.

(** [conf > 0.5]. *)
Definition above_threshold (conf : float) : bool := PrimFloat.ltb 0.5 conf.

(** One turn of the loop over the OCR result. *)
Definition append_if_confident (detected_ui : list ui_element) (d : detection)
  : list ui_element :=
  let '(bbox, text, conf) := d in
  if above_threshold conf
  then detected_ui ++ [{| component := text; bounding_box := bbox |}]
  else detected_ui.

Definition extract_ui_elements (rt : runtime) (screen : screen_value)
  : M (list ui_element) :=
  if no_image screen then ret []
  else
    result <- readtext rt (np_array screen) ;;
    ret (fold_left append_if_confident result []).

(* ================================================================== *)
(** ** [json.dumps(..., indent=4)] on a dict of strings *)
(* ================================================================== *)

Definition hexdigit (d : N) : codepoint :=
  (if d <? 10 then 48 + d else 87 + d)%N.

(** ['{0:04x}'.format(n)], for [n < 0x10000] as at both places of use. *)
Definition format_04x (n : N) : pystr :=
  [hexdigit (N.land (N.shiftr n 12) 15); hexdigit (N.land (N.shiftr n 8) 15);
   hexdigit (N.land (N.shiftr n 4) 15); hexdigit (N.land n 15)].

(** The replacement of one character by [encode_basestring_ascii]:
    the short escapes of its table, printable ASCII as it is, [\uXXXX]
    for the rest of the basic plane and a surrogate pair above it. *)
Definition escape_char (c : codepoint) : pystr :=
  (if c =? 92 then [92; 92]
   else if c =? 34 then [92; 34]
   else if c =? 8 then [92; 98]
   else if c =? 12 then [92; 102]
   else if c =? 10 then [92; 110]
   else if c =? 13 then [92; 114]
   else if c =? 9 then [92; 116]
   else if (32 <=? c) && (c <=? 126) then [c]
   else if c <? 65536 then 92 :: 117 :: format_04x c
   else
     let n := c - 65536 in
     let s1 := N.lor 55296 (N.land (N.shiftr n 10) 1023) in
     let s2 := N.lor 56320 (N.land n 1023) in
     (92 :: 117 :: format_04x s1) ++ (92 :: 117 :: format_04x s2))%N.

Definition encode_basestring_ascii (s : pystr) : pystr :=
  [34%N] ++ flat_map escape_char s ++ [34%N].

Fixpoint join (sep : pystr) (items : list pystr) : pystr :=
  match items with
  | [] => []
  | [x] => x
  | x :: rest => x ++ sep ++ join sep rest
  end.

(** [json.dumps(d, indent=indent)] for a dict [d] from strings to strings,
    given as its items in insertion order. *)
Definition json_dumps (d : list (pystr * pystr)) (indent : nat) : pystr :=
  match d with
  | [] => lit "{}"
  | _ =>
      let newline_indent := 10%N :: repeat 32%N indent in
      let item kv :=
        encode_basestring_ascii (fst kv) ++ lit ": " ++
        encode_basestring_ascii (snd kv) in
      lit "{" ++ newline_indent ++
      join (lit "," ++ newline_indent) (List.map item d) ++
      [10%N] ++ lit "}"
  end.

(* ================================================================== *)
(** ** Reading JSON text back: objects whose members are strings *)
(* ================================================================== *)

Definition hexvalue (c : codepoint) : option N :=
  (if (48 <=? c) && (c <=? 57) then Some (c - 48)
   else if (97 <=? c) && (c <=? 102) then Some (c - 87)
   else if (65 <=? c) && (c <=? 70) then Some (c - 55)
   else None)%N.

(** The four hexadecimal digits of a [\u] escape. *)
Definition decode_uXXXX (h1 h2 h3 h4 : codepoint) : option N :=
  match hexvalue h1, hexvalue h2, hexvalue h3, hexvalue h4 with
  | Some a, Some b, Some c, Some d => Some (((a * 16 + b) * 16 + c) * 16 + d)%N
  | _, _, _, _ => None
  end.

(** The character a short escape stands for. *)
Definition backslash (e : codepoint) : option codepoint :=
  (if e =? 34 then Some 34
   else if e =? 92 then Some 92
   else if e =? 47 then Some 47
   else if e =? 98 then Some 8
   else if e =? 102 then Some 12
   else if e =? 110 then Some 10
   else if e =? 114 then Some 13
   else if e =? 116 then Some 9
   else None)%N.

Definition is_high_surrogate (u : N) : bool := ((55296 <=? u) && (u <=? 56319))%N.
Definition is_low_surrogate (u : N) : bool := ((56320 <=? u) && (u <=? 57343))%N.

Definition cons_char (c : codepoint) (r : option (pystr * pystr))
  : option (pystr * pystr) :=
  match r with
  | Some (s, rest) => Some (c :: s, rest)
  | None => None
  end.

(** The scanner of a JSON string, from just after its opening quote
    (strict mode): the decoded string and the text after the closing
    quote.  A [\u] escape of a high surrogate followed by one of a low
    surrogate gives one character. *)
Fixpoint scanstring (s : pystr) : option (pystr * pystr) :=
  match s with
  | [] => None
  | c :: s1 =>
      if (c =? 34)%N then Some ([], s1)
      else if (c =? 92)%N then
        match s1 with
        | [] => None
        | e :: s2 =>
            if (e =? 117)%N then
              match s2 with
              | h1 :: h2 :: h3 :: h4 :: s3 =>
                  match decode_uXXXX h1 h2 h3 h4 with
                  | None => None
                  | Some uni =>
                      if is_high_surrogate uni then
                        match s3 with
                        | b :: u :: s4 =>
                            if ((b =? 92) && (u =? 117))%N then
                              match s4 with
                              | g1 :: g2 :: g3 :: g4 :: s5 =>
                                  match decode_uXXXX g1 g2 g3 g4 with
                                  | None => None
                                  | Some uni2 =>
                                      if is_low_surrogate uni2 then
                                        cons_char
                                          (65536 + N.lor (N.shiftl (uni - 55296) 10)
                                                         (uni2 - 56320))%N
                                          (scanstring s5)
                                      else cons_char uni (scanstring s3)
                                  end
                              | _ => None
                              end
                            else cons_char uni (scanstring s3)
                        | _ => cons_char uni (scanstring s3)
                        end
                      else cons_char uni (scanstring s3)
                  end
              | _ => None
              end
            else
              match backslash e with
              | Some ch => cons_char ch (scanstring s2)
              | None => None
              end
        end
      else if (c <? 32)%N then None
      else cons_char c (scanstring s1)
  end.

(** JSON white space. *)
Definition json_ws (c : codepoint) : bool :=
  ((c =? 32) || (c =? 9) || (c =? 10) || (c =? 13))%N.

Fixpoint skip_ws (s : pystr) : pystr :=
  match s with
  | c :: s' => if json_ws c then skip_ws s' else s
  | [] => []
  end.

(** A string at the head of the text, then white space. *)
Definition scan_quoted (s : pystr) : option (pystr * pystr) :=
  match s with
  | c :: s' =>
      if (c =? 34)%N then
        match scanstring s' with
        | Some (v, rest) => Some (v, skip_ws rest)
        | None => None
        end
      else None
  | [] => None
  end.

(** The members of an object after its first brace or after a comma:
    ["key": "value"] pairs up to the closing brace. *)
Fixpoint scan_members (fuel : nat) (s : pystr)
  : option (list (pystr * pystr) * pystr) :=
  match fuel with
  | O => None
  | S fuel' =>
      match scan_quoted s with
      | None => None
      | Some (key, s1) =>
          match s1 with
          | colon :: s2 =>
              if (colon =? 58)%N then
                match scan_quoted (skip_ws s2) with
                | None => None
                | Some (value, s3) =>
                    match s3 with
                    | sep :: s4 =>
                        if (sep =? 125)%N then Some ([(key, value)], s4)
                        else if (sep =? 44)%N then
                          match scan_members fuel' (skip_ws s4) with
                          | Some (more, s5) => Some ((key, value) :: more, s5)
                          | None => None
                          end
                        else None
                    | [] => None
                    end
                end
              else None
          | [] => None
          end
      end
  end.

(** [json.loads] on the documents that are one object with string
    members; any other text is refused, so what is accepted is JSON. *)
Definition json_loads (text : pystr) : option (list (pystr * pystr)) :=
  match skip_ws text with
  | brace :: s1 =>
      if (brace =? 123)%N then
        match skip_ws s1 with
        | c :: s2 =>
            if (c =? 125)%N then
              match skip_ws s2 with
              | [] => Some []
              | _ :: _ => None
              end
            else
              match scan_members (List.length text) (c :: s2) with
              | Some (members, s3) =>
                  match skip_ws s3 with
                  | [] => Some members
                  | _ :: _ => None
                  end
              | None => None
              end
        | [] => None
        end
      else None
  | [] => None
  end.

(* ================================================================== *)
(** ** f-strings *)
(* ================================================================== *)

(** The parts of an f-string once its replacement fields are formatted:
    the constant text between the fields, and what each field inserted. *)
Inductive fpart :=
| Constant (s : pystr)
| FormattedValue (s : pystr).

Definition part_text (p : fpart) : pystr :=
  match p with
  | Constant s => s
  | FormattedValue s => s
  end.

(** The string the f-string evaluates to. *)
Definition joined (parts : list fpart) : pystr := flat_map part_text parts.

(** What its replacement fields inserted, in order. *)
Fixpoint formatted_values (parts : list fpart) : list pystr :=
  match parts with
  | [] => []
  | Constant _ :: rest => formatted_values rest
  | FormattedValue s :: rest => s :: formatted_values rest
  end.

(** [detected_ui_elements] holds a list of element dicts, then possibly
    a string. *)
Inductive elements_or_str :=
| Elements (l : list ui_element)
| Message (s : pystr).

Definition format_elements (rt : runtime) (v : elements_or_str) : pystr :=
  match v with
  | Elements l => repr_elements rt l
  | Message s => s
  end.

(* ================================================================== *)
(** ** The constant text of the four prompts *)
(* ================================================================== *)

Section PromptText.
Local Open Scope string_scope.

Definition ui_data_model_text0 : pystr :=
  lines [
    EmptyString;
    "    You are a Business System Analyst creating a **UI Data Model** for developers.";
    "    Below are the provided inputs:";
    "    - **User Story**: "
  ].

Definition ui_data_model_text1 : pystr :=
  lines [
    EmptyString;
    "    - **Summary/Description**: "
  ].

Definition ui_data_model_text2 : pystr :=
  lines [
    EmptyString;
    "    - **Detected UI Elements (if available)**: "
  ].

Definition ui_data_model_text3 : pystr :=
  lines [
    EmptyString;
    EmptyString;
    "    Generate a **JSON UI Data Model** ensuring:";
    "    - **Consistency** in naming UI components.";
    "    - **Hierarchy** with sections, buttons, inputs, icons, etc.";
    "    - **Clean JSON formatting**.";
    EmptyString;
    "    Follow this JSON structure:";
    "    {";
    "        {";
    "            <ui-data-model> ";
    "            " ++ dq ++ "sectionOne" ++ dq ++ ": ";
    "            { ";
    "            " ++ dq ++ "fieldOne" ++ dq ++ ":<URI>, // e.g. Icon location for fieldOne which is an icon ";
    "            " ++ dq ++ "fieldTwo" ++ dq ++ ": <STRING>, // e.g. String text for fieldTwo ";
    "            " ++ dq ++ "fieldThree" ++ dq ++ ": <STRING>, // e.g. String text for fieldThree ";
    "            " ++ dq ++ "fieldFour" ++ dq ++ ": <STRING>, // e.g. String text for fieldFour " ++ dq ++ "sectionTwo" ++ dq ++ ":  ";
    "            {";
    "            " ++ dq ++ "fieldOne" ++ dq ++ ":<URI>, // e.g. Icon location for fieldOne which is an icon ";
    "            " ++ dq ++ "fieldTwo" ++ dq ++ ": <STRING>, // e.g. String text for fieldTwo ";
    "            " ++ dq ++ "fieldThree" ++ dq ++ ": <STRING>, // e.g. String text for fieldThree ";
    "            " ++ dq ++ "fieldFour" ++ dq ++ ": <dropdown>, // e.g. String text for fieldFour ";
    "                { ";
    "                " ++ dq ++ "dropDownOption1" ++ dq ++ ": <text>, ";
    "                " ++ dq ++ "dropDownOption2" ++ dq ++ ": <text>, ";
    "                " ++ dq ++ "dropDownOption3" ++ dq ++ ": <text>, ";
    "                }, ";
    "                ";
    "            }, ";
    "        } </ui-data-model> </TEMPLATE 1>";
    "        }";
    "    }";
    EmptyString;
    "    Now, generate the UI Data Model in JSON format.";
    "    "
  ].


Definition gherkin_text0 : pystr :=
  lines [
    EmptyString;
    "    You are an AI assistant trained to generate **structured Gherkin user stories**.";
    "    ";
    "    Below are the provided inputs:";
    "    - **User Story**: "
  ].

Definition gherkin_text1 : pystr :=
  lines [
    EmptyString;
    "    - **Summary/Description**: "
  ].

Definition gherkin_text2 : pystr :=
  lines [
    EmptyString;
    "    - **UI Data Model**: "
  ].

Definition gherkin_text3 : pystr :=
  lines [
    EmptyString;
    EmptyString;
    "    ### Instructions:";
    "    1. **Generate structured Gherkin user stories** based on the inputs.";
    "    2. Each UI element should have an **associated user interaction**.";
    "    3. Include **positive & negative scenarios**.";
    "    4. Provide **expected results** for each action.";
    "    5. Additionally, generate **non-functional user stories**, including:";
    "       - **Performance**";
    "       - **Security**";
    "       - **Usability**";
    "       - **Accessibility**";
    EmptyString;
    "    Now, generate structured and consistent Gherkin scenarios.";
    "    "
  ].


Definition test_cases_text0 : pystr :=
  lines [
    EmptyString;
    "    Given the following user story:";
    "    "
  ].

Definition test_cases_text1 : pystr :=
  lines [
    EmptyString;
    "    ";
    "    Generate **structured imperative test cases** suitable for **automation testing**.";
    "    - Target Platform: "
  ].

Definition test_cases_text2 : pystr :=
  lines [
    EmptyString;
    "    - Recommended Technology: "
  ].

Definition test_cases_text3 : pystr :=
  lines [
    EmptyString;
    "    - Include proper test steps, assertions, and expected results.";
    "    - Ensure test cases follow a structured format.";
    "    - Include all possible scenarios, covering edge cases.";
    "    - Additionally, generate relevant **non-functional test cases**, including:";
    "      - **Performance**";
    "      - **Security**";
    "      - **Usability**";
    "      - **Accessibility**";
    "      - Verify that all UI elements have appropriate **color contrast ratios**.";
    "      - Ensure all images/icons have **alt text** for screen readers.";
    "      - Validate that text elements are readable against different backgrounds.";
    "      - Check that keyboard navigation works seamlessly across UI components.";
    "      - Test using accessibility tools such as Axe or Lighthouse.";
    EmptyString;
    "    Now, generate structured imperative and non-functional test cases.";
    "    "
  ].


Definition feature_file_text0 : pystr :=
  lines [
    EmptyString;
    "    Given the following structured imperative test cases:";
    "    "
  ].

Definition feature_file_text1 : pystr :=
  lines [
    EmptyString;
    "    ";
    "    Follow this feature file template:";
    "       Feature: [Feature Name]";
    EmptyString;
    "        Scenario: [Scenario Name]";
    "          Given [Precondition]";
    "          When [Action]";
    "          Then [Expected Outcome]";
    EmptyString;
    "        @platform-specific";
    "        Scenario: [Platform-Specific Scenario]";
    "          Given [Precondition]";
    "          When [Platform-specific Action]";
    "          Then [Expected Outcome]";
    "    Ensure step definitions match the selected platform: "
  ].

Definition feature_file_text2 : pystr :=
  lines [
    ".";
    "    - Use step definitions in the selected format: "
  ].

Definition feature_file_text3 : pystr :=
  lines [
    ".";
    "    - Provide structured Given-When-Then steps specific to the format.";
    "    - Include **test data** where applicable for input fields.";
    "    - Ensure alt text is validated for image-based UI elements.";
    "    - Validate expected color contrast ratios in assertions.";
    "    Now, generate the feature file with correct step definitions for the selected platform: "
  ].

Definition feature_file_text4 : pystr :=
  lines [
    ".";
    "    ";
    "    - Ensure step definitions include **preconditions**, **actions**, and **expected outcomes**.";
    "    - Provide **clear assertions** for UI elements and business logic.";
    "    - Include **test data** where applicable for better test coverage.";
    "    - Ensure all **accessibility** checks (color contrast, alt text) are validated.";
    "    - Differentiate **Web vs. Mobile step definitions** where necessary.";
    "    - Use structured Gherkin syntax with meaningful step descriptions.";
    "    - Generate **step definitions in Python (Behave), Java (Cucumber), or JS (Cypress)** for automation purposes.";
    "    "
  ].


End PromptText.

Definition no_user_story : pystr := lit "No user story provided.".
Definition no_summary : pystr := lit "No additional summary provided.".
Definition no_ui_elements : pystr :=
  lit "No UI elements detected from the image. Generating UI data model based on provided user story and summary.".

(** The f-string of [generate_ui_data_model]. *)
Definition ui_data_model_fstring (rt : runtime) (user_story summary : pytext)
    (detected_ui_elements : elements_or_str) : list fpart :=
  [ Constant ui_data_model_text0;
    FormattedValue (format (if truthy user_story then user_story
                            else PyStr no_user_story));
    Constant ui_data_model_text1;
    FormattedValue (format (if truthy summary then summary
                            else PyStr no_summary));
    Constant ui_data_model_text2;
    FormattedValue (format_elements rt detected_ui_elements);
    Constant ui_data_model_text3 ].

(** The f-string of [generate_gherkin_from_ui]. *)
Definition gherkin_fstring (ui_data_model user_story summary : pytext)
  : list fpart :=
  [ Constant gherkin_text0;
    FormattedValue (format (if truthy user_story then user_story
                            else PyStr no_user_story));
    Constant gherkin_text1;
    FormattedValue (format (if truthy summary then summary
                            else PyStr no_summary));
    Constant gherkin_text2;
    FormattedValue (format ui_data_model);
    Constant gherkin_text3 ].

(** The f-string of [generate_test_cases]. *)
Definition test_cases_fstring (gherkin_story platform technology : pytext)
  : list fpart :=
  [ Constant test_cases_text0;
    FormattedValue (format gherkin_story);
    Constant test_cases_text1;
    FormattedValue (format platform);
    Constant test_cases_text2;
    FormattedValue (format technology);
    Constant test_cases_text3 ].

(** The f-string of [generate_feature_file]. *)
Definition feature_file_fstring (test_cases platform step_definition_format : pytext)
  : list fpart :=
  [ Constant feature_file_text0;
    FormattedValue (format test_cases);
    Constant feature_file_text1;
    FormattedValue (format platform);
    Constant feature_file_text2;
    FormattedValue (format step_definition_format);
    Constant feature_file_text3;
    FormattedValue (format platform);
    Constant feature_file_text4 ].

(* ================================================================== *)
(** ** The completion call and its two handlers *)
(* ================================================================== *)

(** [response.choices[0].message.content.strip()]. *)
Definition first_content_stripped (r : response) : result pystr :=
  match choices r with
  | [] =>
      Raise {| exn_class_of := IndexError;
               exn_str := lit "list index out of range" |}
  | None :: _ =>
      Raise {| exn_class_of := AttributeError;
               exn_str := lit "'NoneType' object has no attribute 'strip'" |}
  | Some text :: _ => Return (strip text)
  end.

(** [json.dumps({"error": f"<prefix>{str(e)}"}, indent=4)]. *)
Definition error_json (prefix : pystr) (e : exn) : pystr :=
  json_dumps [(lit "error", prefix ++ exn_str e)] 4.

(** The block that ends each of the four stages, which differ in the
    system message and the prompt only:
<<
    try:
        response = openai.chat.completions.create(model="gpt-4", messages=[...])
        return response.choices[0].message.content.strip()
    except openai.OpenAIError as e:
        return json.dumps({"error": f"OpenAI API error: {str(e)}"}, indent=4)
    except Exception as e:
        return json.dumps({"error": f"Unexpected error: {str(e)}"}, indent=4)
>> *)
Definition chat_request (system prompt : pystr) : request :=
  {| model := lit "gpt-4";
     messages := [ {| role := lit "system"; content := system |};
                   {| role := lit "user"; content := prompt |} ] |}.

Definition complete (rt : runtime) (system prompt : pystr) : M pystr :=
  try_except
    (response <- create rt (chat_request system prompt) ;;
     lift (first_content_stripped response))
    (fun e =>
       if isinstance_OpenAIError e
       then ret (error_json (lit "OpenAI API error: ") e)
       else ret (error_json (lit "Unexpected error: ") e)).

(* ================================================================== *)
(** ** The four stages *)
(* ================================================================== *)

Definition ui_data_model_system : pystr :=
  lit "You are an AI assistant trained to generate standardized UI Data Models.".
Definition gherkin_system : pystr :=
  lit "You are an AI assistant trained to generate structured Gherkin user stories.".
Definition test_cases_system : pystr :=
  lit "You are an AI assistant trained to generate structured imperative and non-functional test cases for automation.".
Definition feature_file_system : pystr :=
  lit "You are an AI assistant trained to generate structured feature files with step definitions.".

Definition generate_ui_data_model (rt : runtime) (user_story summary : pytext)
    (screen : screen_value) : M pystr :=
  detected_ui_elements <-
    (if no_image screen then ret [] else extract_ui_elements rt screen) ;;
  let detected_ui_elements :=
    match detected_ui_elements with
    | [] => Message no_ui_elements
    | _ :: _ => Elements detected_ui_elements
    end in
  let prompt :=
    joined (ui_data_model_fstring rt user_story summary detected_ui_elements) in
  complete rt ui_data_model_system prompt.

Definition generate_gherkin_from_ui (rt : runtime)
    (ui_data_model user_story summary : pytext) : M pystr :=
  let prompt := joined (gherkin_fstring ui_data_model user_story summary) in
  complete rt gherkin_system prompt.

Definition generate_test_cases (rt : runtime)
    (gherkin_story platform technology : pytext) : M pystr :=
  let prompt := joined (test_cases_fstring gherkin_story platform technology) in
  complete rt test_cases_system prompt.

Definition generate_feature_file (rt : runtime)
    (test_cases platform step_definition_format : pytext) : M pystr :=
  let platform := if truthy platform then platform else PyStr (lit "Web") in
  let prompt :=
    joined (feature_file_fstring test_cases platform step_definition_format) in
  complete rt feature_file_system prompt.

(* ================================================================== *)
(** ** The Gradio surface: widgets, listeners, a click *)
(* ================================================================== *)

Inductive widget :=
| user_story_input
| summary_input
| screen_input
| platform_input
| technology_input
| ui_data_model_output
| gherkin_output
| test_case_output
| feature_file_output
| step_definition_input.

(** What a widget holds: text for a text box or a drop-down, an image
    (or [None]) for the image input. *)
Inductive value :=
| Text (v : pytext)
| Picture (s : screen_value).

Inductive stage_function :=
| Generate_ui_data_model
| Generate_gherkin_from_ui
| Generate_test_cases
| Generate_feature_file.

(** A [def]: its name, the parameters without a default and the number
    of parameters with one. *)
Record signature := {
  def_name : string;
  required : list string;
  defaulted : nat
}.

Definition signature_of (f : stage_function) : signature :=
  match f with
  | Generate_ui_data_model =>
      {| def_name := "generate_ui_data_model";
         required := ["user_story"; "summary"]%string; defaulted := 1 |}
  | Generate_gherkin_from_ui =>
      {| def_name := "generate_gherkin_from_ui";
         required := ["ui_data_model"; "user_story"; "summary"]%string;
         defaulted := 0 |}
  | Generate_test_cases =>
      {| def_name := "generate_test_cases";
         required := ["gherkin_story"; "platform"; "technology"]%string;
         defaulted := 0 |}
  | Generate_feature_file =>
      {| def_name := "generate_feature_file";
         required := ["test_cases"; "platform"; "step_definition_format"]%string;
         defaulted := 0 |}
  end.

Section CallMessages.
Local Open Scope string_scope.

Definition decimal (n : nat) : string :=
  DecimalString.NilEmpty.string_of_uint (Nat.to_uint n).

Definition quoted (name : string) : string := "'" ++ name ++ "'".

(** The names of the missing parameters, as the interpreter lists them. *)
Definition name_list (names : list string) : string :=
  match names with
  | [] => ""%string
  | [a] => quoted a
  | [a; b] => quoted a ++ " and " ++ quoted b
  | a :: (_ :: _ :: _) as rest =>
      quoted a ++ ", " ++
      (fix tail (l : list string) : string :=
         match l with
         | [] => ""%string
         | [z] => "and " ++ quoted z
         | x :: l' => quoted x ++ ", " ++ tail l'
         end) rest
  end.

Definition plural (n : nat) : string := if Nat.eqb n 1 then "" else "s".

(** Binding [given] positional arguments to the parameters of a [def]:
    the [TypeError] raised when they do not fit, if any. *)
Definition bind_positional (sg : signature) (given : nat) : option exn :=
  let needed := List.length (required sg) in
  let most := needed + defaulted sg in
  if Nat.ltb given needed then
    let missing := skipn given (required sg) in
    Some {| exn_class_of := TypeError;
            exn_str := lit (def_name sg ++ "() missing " ++
                            decimal (List.length missing) ++
                            " required positional argument" ++
                            plural (List.length missing) ++ ": " ++
                            name_list missing) |}
  else if Nat.ltb most given then
    Some {| exn_class_of := TypeError;
            exn_str := lit (def_name sg ++ "() takes " ++
                            (if Nat.eqb (defaulted sg) 0 then decimal most
                             else "from " ++ decimal needed ++ " to " ++ decimal most) ++
                            " positional argument" ++ plural most ++ " but " ++
                            decimal given ++
                            (if Nat.eqb given 1 then " was" else " were") ++
                            " given") |}
  else None.

End CallMessages.

(** The call of [fn] on the values of the inputs.  The last case cannot arise from the widgets of this
    program: a text box yields no image and the image input no text. *)
Definition call (rt : runtime) (f : stage_function) (args : list value)
  : M pystr :=
  match bind_positional (signature_of f) (List.length args) with
  | Some e => raise e
  | None =>
      match f, args with
      | Generate_ui_data_model, [Text user_story; Text summary] =>
          generate_ui_data_model rt user_story summary ScreenNone
      | Generate_ui_data_model, [Text user_story; Text summary; Picture screen] =>
          generate_ui_data_model rt user_story summary screen
      | Generate_gherkin_from_ui, [Text ui_data_model; Text user_story; Text summary] =>
          generate_gherkin_from_ui rt ui_data_model user_story summary
      | Generate_test_cases, [Text gherkin_story; Text platform; Text technology] =>
          generate_test_cases rt gherkin_story platform technology
      | Generate_feature_file, [Text test_cases; Text platform; Text fmt] =>
          generate_feature_file rt test_cases platform fmt
      | _, _ =>
          raise {| exn_class_of := TypeError;
                   exn_str := lit "argument of a type the widgets do not produce" |}
      end
  end.

(** [button.click(fn, inputs=..., outputs=...)]. *)
Record listener := {
  fn : stage_function;
  inputs : list widget;
  outputs : widget
}.

Definition generate_ui_btn : listener :=
  {| fn := Generate_ui_data_model;
     inputs := [user_story_input; summary_input; screen_input];
     outputs := ui_data_model_output |}.

Definition generate_gherkin_btn : listener :=
  {| fn := Generate_gherkin_from_ui;
     inputs := [ui_data_model_output];
     outputs := gherkin_output |}.

Definition generate_test_cases_btn : listener :=
  {| fn := Generate_test_cases;
     inputs := [gherkin_output; platform_input; technology_input];
     outputs := test_case_output |}.

Definition generate_feature_file_btn : listener :=
  {| fn := Generate_feature_file;
     inputs := [test_case_output; platform_input; step_definition_input];
     outputs := feature_file_output |}.

Definition widget_eqb (a b : widget) : bool :=
  match a, b with
  | user_story_input, user_story_input
  | summary_input, summary_input
  | screen_input, screen_input
  | platform_input, platform_input
  | technology_input, technology_input
  | ui_data_model_output, ui_data_model_output
  | gherkin_output, gherkin_output
  | test_case_output, test_case_output
  | feature_file_output, feature_file_output
  | step_definition_input, step_definition_input => true
  | _, _ => false
  end.

(** What the widgets hold. *)
Definition ui_state := widget -> value.

Definition set_value (ui : ui_state) (c : widget) (v : value) : ui_state :=
  fun c' => if widget_eqb c c' then v else ui c'.

(** A click: the values of the listener's inputs are passed to its
    function, in order, and what it returns is shown in its output. *)
Definition click (rt : runtime) (l : listener) (ui : ui_state) : M ui_state :=
  returned <- call rt (fn l) (List.map ui (inputs l)) ;;
  ret (set_value ui (outputs l) (Text (PyStr returned))).

(** The parameters of the listener's function that its inputs fill. *)
Definition parameters_filled (l : listener) : list string :=
  firstn (List.length (inputs l)) (required (signature_of (fn l))).

(* ================================================================== *)
(** ** Vocabulary of the statements *)
(* ================================================================== *)

(** The record a detection is mapped to. *)
Definition element_of (d : detection) : ui_element :=
  {| component := snd (fst d); bounding_box := fst (fst d) |}.

(** The detections whose confidence is strictly above 0.5. *)
Definition confident (d : detection) : bool := above_threshold (snd d).

(** A field with a fallback, in the words of the specification: the
    fallback when the value is [None] or the empty string, the value as
    it is otherwise. *)
Definition field_or (fallback : pystr) (v : pytext) : pystr :=
  match v with
  | PyNone => fallback
  | PyStr [] => fallback
  | PyStr (c :: s) => c :: s
  end.

(** No replacement field of the f-string inserted the empty string. *)
Definition no_empty_field (parts : list fpart) : Prop :=
  Forall (fun s : pystr => s <> []) (formatted_values parts).

(** The listener passes a value for every parameter without a default. *)
Definition fills_required (l : listener) : bool :=
  Nat.leb (List.length (required (signature_of (fn l)))) (List.length (inputs l)).

(** Sample runtimes, for the concrete instances below. *)

Definition one_choice (text : pystr) : response := {| choices := [Some text] |}.

(** An OCR engine that detects nothing and a service that answers. *)
Definition quiet_runtime : runtime :=
  {| reader_readtext := fun _ _ => Return [];
     chat_completions_create := fun _ _ => Return (one_choice (lit " ok "));
     repr_elements := fun _ => lit "[...]" |}.

(** A service that rejects every request. *)
Definition rejecting_runtime (cls : exn_class) : runtime :=
  {| reader_readtext := fun _ _ => Return [];
     chat_completions_create :=
       fun _ _ => Raise {| exn_class_of := cls; exn_str := lit "quota exceeded" |};
     repr_elements := fun _ => lit "[...]" |}.

(** An OCR engine that returns the given detections. *)
Definition reading_runtime (ds : list detection) : runtime :=
  {| reader_readtext := fun _ _ => Return ds;
     chat_completions_create := fun _ _ => Return (one_choice (lit " ok "));
     repr_elements := fun _ => lit "[...]" |}.

(** An OCR engine that fails on every image. *)
Definition failing_reader_runtime : runtime :=
  {| reader_readtext :=
       fun _ _ => Raise {| exn_class_of := OtherException;
                           exn_str := lit "CUDA out of memory" |};
     chat_completions_create := fun _ _ => Return (one_choice (lit " ok "));
     repr_elements := fun _ => lit "[...]" |}.

Definition box : polygon := [(0, 0); (40, 0); (40, 12); (0, 12)]%Z.

(** A one-pixel RGB image. *)
Definition pixel_image : screen_value :=
  ScreenImage {| width := 1; height := 1; bands := 3; pixels := [0; 0; 0]%N |}.

(** An array of shape [(0, 3)]. *)
Definition empty_array : ndarray := {| shape := [0; 3]%N; elements := [] |}.

(** The text a stage returns for an exception caught by its handlers. *)
Definition rendered_failure (e : exn) : pystr :=
  if isinstance_OpenAIError e
  then error_json (lit "OpenAI API error: ") e
  else error_json (lit "Unexpected error: ") e.

(** What [generate_ui_data_model] shows for the detected elements. *)
Definition shown_elements (detected : list ui_element) : elements_or_str :=
  match detected with
  | [] => Message no_ui_elements
  | _ :: _ => Elements detected
  end.

(** One call of a stage, with its arguments. *)
Inductive invocation :=
| Call_ui_data_model (user_story summary : pytext) (screen : screen_value)
| Call_gherkin_from_ui (ui_data_model user_story summary : pytext)
| Call_test_cases (gherkin_story platform technology : pytext)
| Call_feature_file (test_cases platform step_definition_format : pytext).

Definition run_stage (rt : runtime) (c : invocation) : M pystr :=
  match c with
  | Call_ui_data_model user_story summary screen =>
      generate_ui_data_model rt user_story summary screen
  | Call_gherkin_from_ui ui_data_model user_story summary =>
      generate_gherkin_from_ui rt ui_data_model user_story summary
  | Call_test_cases gherkin_story platform technology =>
      generate_test_cases rt gherkin_story platform technology
  | Call_feature_file test_cases platform step_definition_format =>
      generate_feature_file rt test_cases platform step_definition_format
  end.

(** The run of [m] from [t] ends with a completion call, and the service
    answers that call with the exception [e]. *)
Definition completion_raises (rt : runtime) (m : M pystr) (t : trace) (e : exn)
  : Prop :=
  exists t' req,
    snd (m t) = t' ++ [ChatCompletion req] /\
    chat_completions_create rt t' req = Raise e.

(** The pieces [encode_basestring_ascii] writes between the quotes: a
    character that stands for itself, a short escape, or a [\u] escape of
    a 16-bit unit. *)
Inductive escaped_piece : pystr -> Prop :=
| piece_plain (c : codepoint) :
    c <> 34%N -> c <> 92%N -> (32 <= c)%N -> escaped_piece [c]
| piece_short (e ch : codepoint) :
    e <> 117%N -> backslash e = Some ch -> escaped_piece [92%N; e]
| piece_unit (n : N) :
    (n < 65536)%N -> escaped_piece (92%N :: 117%N :: format_04x n).

(** Printable ASCII that is written as it is. *)
Definition plain (c : codepoint) : bool :=
  ((32 <=? c) && (c <=? 126) && negb (c =? 34) && negb (c =? 92))%N.

(* ================================================================== *)
(** ** Start-up: the API key *)
(* ================================================================== *)

(** A mapping from names to strings: [st.secrets], [os.environ]. *)
Abbreviation mapping := (list N -> option (list N)) (only parsing).

Definition name_eqb (a b : pystr) : bool :=
  if list_eq_dec N.eq_dec a b then true else false.







(* ================================================================== *)
(** ** More vocabulary *)
(* ================================================================== *)

(** A Unicode scalar value: a code point that is not a surrogate. *)
Definition scalar (c : codepoint) : bool :=
  ((c <? 55296) || (57343 <? c) && (c <? 1114112))%N.

(** Printable ASCII or a line feed. *)
Definition ascii_text (c : codepoint) : bool :=
  ((32 <=? c) && (c <=? 126) || (c =? 10))%N.

Definition starts_with_space (s : pystr) : bool :=
  match s with
  | c :: _ => isspace c
  | [] => false
  end.

Definition ends_with_space (s : pystr) : bool := starts_with_space (rev s).

(** The request every stage makes: the fixed model, a system message
    and then a user message. *)
Definition standard_request (req : request) : Prop :=
  model req = lit "gpt-4" /\
  List.map role (messages req) = [lit "system"; lit "user"].

(** Every widget holds a value of its kind: the image input an image or
    [None], the others text. *)
Definition well_typed (ui : ui_state) : Prop :=
  forall w,
    match w with
    | screen_input => exists s, ui w = Picture s
    | _ => exists v, ui w = Text v
    end.

(** The widgets the user fills. *)
Definition is_input (w : widget) : bool :=
  match w with
  | user_story_input | summary_input | screen_input | platform_input
  | technology_input | step_definition_input => true
  | _ => false
  end.

(** A zero-width RGB image. *)
Definition empty_image : pil_image :=
  {| width := 0; height := 4; bands := 3; pixels := [] |}.

(** Widgets before anything was generated. *)
Definition fresh_ui : ui_state :=
  fun w =>
    match w with
    | screen_input => Picture ScreenNone
    | user_story_input => Text (PyStr (lit "As a user, I want to log in"))
    | platform_input | technology_input | step_definition_input => Text PyNone
    | _ => Text (PyStr [])
    end.

(* ================================================================== *)
(** * Properties *)
(* ================================================================== *)

(** ** Detection *)

Lemma fold_append_if_confident (ds : list detection) (acc : list ui_element) :
  fold_left append_if_confident ds acc =
  acc ++ List.map element_of (filter confident ds).
Proof.
  revert acc; induction ds as [|[[bbox text] conf] ds IH]; intros acc; simpl.
  - now rewrite app_nil_r.
  - rewrite IH. unfold confident at 2; simpl.
    destruct (above_threshold conf); simpl.
    + now rewrite <- app_assoc.
    + reflexivity.
Qed.

Lemma extract_ui_elements_no_image rt screen t :
  no_image screen = true -> extract_ui_elements rt screen t = (Return [], t).
Proof. intros H; unfold extract_ui_elements; now rewrite H. Qed.

Lemma extract_ui_elements_image rt screen t :
  no_image screen = false ->
  extract_ui_elements rt screen t =
  (match reader_readtext rt t (np_array screen) with
   | Return ds => Return (List.map element_of (filter confident ds))
   | Raise e => Raise e
   end, t ++ [Readtext (np_array screen)]).
Proof.
  intros H; unfold extract_ui_elements, bind, readtext, ret; rewrite H.
  destruct (reader_readtext rt t (np_array screen)); [|reflexivity].
  now rewrite fold_append_if_confident.
Qed.

(** C2: on an image, [extract_ui_elements] calls the OCR engine once and
    returns the detections whose confidence is strictly greater than 0.5,
    each mapped to its record, in the order the engine gave them, nothing
    re-sorted and nothing merged; a confidence of exactly 0.5 is not
    greater than 0.5, so such a detection is left out. *)
Theorem extract_ui_elements_keeps_confident
    (rt : runtime) (screen : screen_value) (t : trace) (ds : list detection) :
  no_image screen = false ->
  reader_readtext rt t (np_array screen) = Return ds ->
  extract_ui_elements rt screen t =
    (Return (List.map element_of (filter confident ds)),
     t ++ [Readtext (np_array screen)])
  /\ (forall bbox text, confident (bbox, text, 0.5%float) = false)
  /\ (forall el, In el (List.map element_of (filter confident ds)) ->
                 exists d, In d ds /\ el = element_of d /\
                           PrimFloat.ltb 0.5 (snd d) = true).
Proof.
  intros Himg Hread. split; [|split].
  - rewrite extract_ui_elements_image by assumption. now rewrite Hread.
  - reflexivity.
  - intros el Hin. apply in_map_iff in Hin as [d [Heq Hin]].
    apply filter_In in Hin as [Hin Hc]. exists d. auto.
Qed.

Lemma extract_ui_elements_keeps_confident_witness :
  extract_ui_elements
    (reading_runtime [(box, lit "Login", 0.9%float); (box, lit "Help", 0.5%float);
                      (box, lit "Login", 0.75%float); (box, lit "x", 0.3%float)])
    pixel_image [] =
  (Return [ {| component := lit "Login"; bounding_box := box |};
            {| component := lit "Login"; bounding_box := box |} ],
   [Readtext (np_array pixel_image)]).
Proof.
  exact (proj1 (@extract_ui_elements_keeps_confident
                  (reading_runtime _) pixel_image [] _ eq_refl eq_refl)).
Defined.

(** C6: when [screen] is [None], a string or an array of size zero,
    [extract_ui_elements] returns the empty list and the trace is the one
    it started from: the OCR engine was not called. *)
Theorem extract_ui_elements_skips_ocr
    (rt : runtime) (screen : screen_value) (t : trace) :
  screen = ScreenNone \/ (exists path, screen = ScreenStr path) \/
  (exists a, screen = ScreenArray a /\ size a = 0%N) ->
  extract_ui_elements rt screen t = (Return [], t).
Proof.
  intros [-> | [[path ->] | [a [-> Hsize]]]];
    apply extract_ui_elements_no_image; simpl; trivial.
  now apply N.eqb_eq.
Qed.

Lemma extract_ui_elements_skips_ocr_witness :
  extract_ui_elements failing_reader_runtime ScreenNone [] = (Return [], []) /\
  extract_ui_elements failing_reader_runtime (ScreenStr (lit "/tmp/ui.png")) [] =
    (Return [], []) /\
  extract_ui_elements failing_reader_runtime (ScreenArray empty_array) [] =
    (Return [], []).
Proof.
  split; [|split].
  - apply extract_ui_elements_skips_ocr. now left.
  - apply extract_ui_elements_skips_ocr. right; left. now eexists.
  - apply extract_ui_elements_skips_ocr. right; right.
    exists empty_array. split; reflexivity.
Defined.

(** ** The completion call *)

Arguments lit : simpl never.
Arguments lines : simpl never.

Lemma joined_cons (p : fpart) (parts : list fpart) :
  joined (p :: parts) = part_text p ++ joined parts.
Proof. reflexivity. Qed.

Lemma joined_nil : joined [] = [].
Proof. reflexivity. Qed.

Ltac unjoin :=
  repeat rewrite joined_cons; rewrite joined_nil;
  cbn [part_text]; rewrite ?app_nil_r.

(** One completion call is made, whatever it answers, and the stage
    returns text: the stripped content, or the rendering of the failure. *)
Lemma complete_run rt system prompt t :
  complete rt system prompt t =
  (Return
     match chat_completions_create rt t (chat_request system prompt) with
     | Return r =>
         match first_content_stripped r with
         | Return text => text
         | Raise e => rendered_failure e
         end
     | Raise e => rendered_failure e
     end,
   t ++ [ChatCompletion (chat_request system prompt)]).
Proof.
  unfold complete, try_except, bind, create, lift, ret, rendered_failure.
  destruct (chat_completions_create rt t (chat_request system prompt)) as [r|e].
  - destruct (first_content_stripped r) as [text|e]; [reflexivity|].
    now destruct (isinstance_OpenAIError e).
  - now destruct (isinstance_OpenAIError e).
Qed.

Lemma complete_returns rt system prompt t :
  exists text, fst (complete rt system prompt t) = Return text.
Proof. rewrite complete_run. eexists; reflexivity. Qed.

Lemma complete_trace rt system prompt t :
  snd (complete rt system prompt t) =
  t ++ [ChatCompletion (chat_request system prompt)].
Proof. now rewrite complete_run. Qed.

(** The detection step of stage 1. *)
Lemma detect_step rt screen t :
  (if no_image screen then ret [] else extract_ui_elements rt screen) t =
  extract_ui_elements rt screen t.
Proof.
  destruct (no_image screen) eqn:H; [|reflexivity].
  now rewrite extract_ui_elements_no_image.
Qed.

Lemma generate_ui_data_model_run rt user_story summary screen t :
  generate_ui_data_model rt user_story summary screen t =
  match extract_ui_elements rt screen t with
  | (Return detected, t1) =>
      complete rt ui_data_model_system
        (joined (ui_data_model_fstring rt user_story summary
                   (shown_elements detected))) t1
  | (Raise e, t1) => (Raise e, t1)
  end.
Proof.
  unfold generate_ui_data_model, bind. rewrite detect_step.
  destruct (extract_ui_elements rt screen t) as [[detected|e] t1]; [|reflexivity].
  now destruct detected.
Qed.

Lemma field_or_spec (fallback : pystr) (v : pytext) :
  format (if truthy v then v else PyStr fallback) = field_or fallback v.
Proof. now destruct v as [|[|c s]]. Qed.

Lemma contains_app (pre needle post : pystr) :
  contains (pre ++ needle ++ post) needle = true.
Proof.
  induction pre as [|c pre IH]; simpl.
  - assert (H : startswith (needle ++ post) needle = true).
    { induction needle as [|x needle IHn]; simpl; [reflexivity|].
      now rewrite N.eqb_refl. }
    destruct (needle ++ post); simpl in *; rewrite H; reflexivity.
  - rewrite IH. apply orb_true_r.
Qed.

Lemma formatted_values_ui_data_model rt user_story summary v :
  formatted_values (ui_data_model_fstring rt user_story summary v) =
  [field_or no_user_story user_story; field_or no_summary summary;
   format_elements rt v].
Proof. unfold ui_data_model_fstring; simpl. now rewrite !field_or_spec. Qed.

Lemma formatted_values_gherkin ui_data_model user_story summary :
  formatted_values (gherkin_fstring ui_data_model user_story summary) =
  [field_or no_user_story user_story; field_or no_summary summary;
   format ui_data_model].
Proof. unfold gherkin_fstring; simpl. now rewrite !field_or_spec. Qed.

Lemma joined_ui_data_model rt user_story summary v :
  joined (ui_data_model_fstring rt user_story summary v) =
  ui_data_model_text0 ++ field_or no_user_story user_story ++
  ui_data_model_text1 ++ field_or no_summary summary ++
  ui_data_model_text2 ++ format_elements rt v ++ ui_data_model_text3.
Proof. unfold ui_data_model_fstring. unjoin. now rewrite !field_or_spec. Qed.

Lemma joined_test_cases gherkin_story platform technology :
  joined (test_cases_fstring gherkin_story platform technology) =
  test_cases_text0 ++ format gherkin_story ++ test_cases_text1 ++
  format platform ++ test_cases_text2 ++ format technology ++ test_cases_text3.
Proof. unfold test_cases_fstring. now unjoin. Qed.

Lemma joined_feature_file test_cases platform fmt :
  joined (feature_file_fstring test_cases platform fmt) =
  feature_file_text0 ++ format test_cases ++ feature_file_text1 ++
  format platform ++ feature_file_text2 ++ format fmt ++
  feature_file_text3 ++ format platform ++ feature_file_text4.
Proof. unfold feature_file_fstring. now unjoin. Qed.

Lemma generate_feature_file_run rt test_cases platform fmt t :
  generate_feature_file rt test_cases platform fmt t =
  complete rt feature_file_system
    (joined (feature_file_fstring test_cases
               (PyStr (field_or (lit "Web") platform)) fmt)) t.
Proof.
  unfold generate_feature_file.
  destruct platform as [|[|c s]]; reflexivity.
Qed.

(** ** The prompts *)

(** C7: when detection finds nothing above the threshold, because there is
    no image or because the OCR engine returned no confident detection,
    the prompt that [generate_ui_data_model] sends has the fallback
    sentence after the heading of the detected elements, not an empty
    list. *)
Theorem no_detection_embeds_fallback
    (rt : runtime) (user_story summary : pytext) (screen : screen_value)
    (t : trace) :
  (no_image screen = true \/
   exists ds, no_image screen = false /\
              reader_readtext rt t (np_array screen) = Return ds /\
              filter confident ds = []) ->
  exists t1,
    (t1 = t \/ t1 = t ++ [Readtext (np_array screen)]) /\
    snd (generate_ui_data_model rt user_story summary screen t) =
      t1 ++ [ChatCompletion
               (chat_request ui_data_model_system
                  (ui_data_model_text0 ++ field_or no_user_story user_story ++
                   ui_data_model_text1 ++ field_or no_summary summary ++
                   ui_data_model_text2 ++ no_ui_elements ++
                   ui_data_model_text3))] /\
    formatted_values
      (ui_data_model_fstring rt user_story summary (shown_elements [])) =
      [field_or no_user_story user_story; field_or no_summary summary;
       no_ui_elements].
Proof.
  intros H. rewrite generate_ui_data_model_run.
  destruct H as [Hno | [ds [Himg [Hread Hnone]]]].
  - exists t. rewrite extract_ui_elements_no_image by assumption.
    rewrite complete_trace, joined_ui_data_model.
    rewrite formatted_values_ui_data_model. auto.
  - exists (t ++ [Readtext (np_array screen)]).
    rewrite extract_ui_elements_image by assumption.
    rewrite Hread, Hnone. cbn [List.map].
    rewrite complete_trace, joined_ui_data_model.
    rewrite formatted_values_ui_data_model. auto.
Qed.

Lemma no_detection_embeds_fallback_witness :
  exists t1,
    (t1 = [] \/ t1 = [] ++ [Readtext (np_array pixel_image)]) /\
    snd (generate_ui_data_model
           (reading_runtime [(box, lit "Login", 0.5%float); (box, lit "x", 0.3%float)])
           (PyStr (lit "As a user, I want to log in")) (PyStr [])
           pixel_image []) =
      t1 ++ [ChatCompletion
               (chat_request ui_data_model_system
                  (ui_data_model_text0 ++
                   field_or no_user_story (PyStr (lit "As a user, I want to log in")) ++
                   ui_data_model_text1 ++ field_or no_summary (PyStr []) ++
                   ui_data_model_text2 ++ no_ui_elements ++
                   ui_data_model_text3))] /\
    formatted_values
      (ui_data_model_fstring
         (reading_runtime [(box, lit "Login", 0.5%float); (box, lit "x", 0.3%float)])
         (PyStr (lit "As a user, I want to log in")) (PyStr [])
         (shown_elements [])) =
      [field_or no_user_story (PyStr (lit "As a user, I want to log in"));
       field_or no_summary (PyStr []); no_ui_elements].
Proof.
  apply no_detection_embeds_fallback.
  right. eexists. split; [reflexivity | split; reflexivity].
Defined.

(** C8: with a platform that is [None] or the empty string,
    [generate_feature_file] itself replaces it by ["Web"] before the prompt
    is composed: the call behaves as the one with platform ["Web"], and
    both platform fields of the prompt it sends read ["Web"]. *)
Theorem unset_platform_defaults_to_Web
    (rt : runtime) (test_cases platform step_definition_format : pytext)
    (t : trace) :
  truthy platform = false ->
  generate_feature_file rt test_cases platform step_definition_format t =
    generate_feature_file rt test_cases (PyStr (lit "Web"))
      step_definition_format t /\
  snd (generate_feature_file rt test_cases platform step_definition_format t) =
    t ++ [ChatCompletion
            (chat_request feature_file_system
               (feature_file_text0 ++ format test_cases ++
                feature_file_text1 ++ lit "Web" ++
                feature_file_text2 ++ format step_definition_format ++
                feature_file_text3 ++ lit "Web" ++ feature_file_text4))].
Proof.
  intros H. rewrite !generate_feature_file_run.
  assert (Hf : field_or (lit "Web") platform = lit "Web")
    by (destruct platform as [|[|c s]]; [reflexivity | reflexivity | discriminate]).
  rewrite Hf. split; [reflexivity|].
  now rewrite complete_trace, joined_feature_file.
Qed.

Lemma unset_platform_defaults_to_Web_witness :
  generate_feature_file quiet_runtime (PyStr (lit "TC-1")) PyNone
    (PyStr (lit "Python (Behave)")) [] =
  generate_feature_file quiet_runtime (PyStr (lit "TC-1")) (PyStr (lit "Web"))
    (PyStr (lit "Python (Behave)")) [] /\
  generate_feature_file quiet_runtime (PyStr (lit "TC-1")) (PyStr [])
    (PyStr (lit "Python (Behave)")) [] =
  generate_feature_file quiet_runtime (PyStr (lit "TC-1")) (PyStr (lit "Web"))
    (PyStr (lit "Python (Behave)")) [].
Proof.
  split.
  - exact (proj1 (@unset_platform_defaults_to_Web quiet_runtime
                    (PyStr (lit "TC-1")) PyNone (PyStr (lit "Python (Behave)"))
                    [] eq_refl)).
  - exact (proj1 (@unset_platform_defaults_to_Web quiet_runtime
                    (PyStr (lit "TC-1")) (PyStr []) (PyStr (lit "Python (Behave)"))
                    [] eq_refl)).
Defined.

Lemma joined_gherkin ui_data_model user_story summary :
  joined (gherkin_fstring ui_data_model user_story summary) =
  gherkin_text0 ++ field_or no_user_story user_story ++
  gherkin_text1 ++ field_or no_summary summary ++
  gherkin_text2 ++ format ui_data_model ++ gherkin_text3.
Proof. unfold gherkin_fstring. unjoin. now rewrite !field_or_spec. Qed.

(** The request stage 1 sends once detection has returned. *)
Lemma generate_ui_data_model_request rt user_story summary screen t detected t1 :
  extract_ui_elements rt screen t = (Return detected, t1) ->
  snd (generate_ui_data_model rt user_story summary screen t) =
  t1 ++ [ChatCompletion
           (chat_request ui_data_model_system
              (ui_data_model_text0 ++ field_or no_user_story user_story ++
               ui_data_model_text1 ++ field_or no_summary summary ++
               ui_data_model_text2 ++
               match detected with
               | [] => no_ui_elements
               | _ :: _ => repr_elements rt detected
               end ++ ui_data_model_text3))].
Proof.
  intros Hd. rewrite generate_ui_data_model_run, Hd.
  rewrite complete_trace, joined_ui_data_model. now destruct detected.
Qed.

(** The request stage 2 sends. *)
Lemma generate_gherkin_from_ui_request rt ui_data_model user_story summary t :
  snd (generate_gherkin_from_ui rt ui_data_model user_story summary t) =
  t ++ [ChatCompletion
          (chat_request gherkin_system
             (gherkin_text0 ++ field_or no_user_story user_story ++
              gherkin_text1 ++ field_or no_summary summary ++
              gherkin_text2 ++ format ui_data_model ++ gherkin_text3))].
Proof.
  unfold generate_gherkin_from_ui. now rewrite complete_trace, joined_gherkin.
Qed.

(** The request stage 3 sends. *)
Lemma generate_test_cases_request rt gherkin_story platform technology t :
  snd (generate_test_cases rt gherkin_story platform technology t) =
  t ++ [ChatCompletion
          (chat_request test_cases_system
             (test_cases_text0 ++ format gherkin_story ++
              test_cases_text1 ++ format platform ++
              test_cases_text2 ++ format technology ++ test_cases_text3))].
Proof.
  unfold generate_test_cases. now rewrite complete_trace, joined_test_cases.
Qed.

(** The request stage 4 sends. *)
Lemma generate_feature_file_request rt test_cases platform fmt t :
  snd (generate_feature_file rt test_cases platform fmt t) =
  t ++ [ChatCompletion
          (chat_request feature_file_system
             (feature_file_text0 ++ format test_cases ++
              feature_file_text1 ++ field_or (lit "Web") platform ++
              feature_file_text2 ++ format fmt ++
              feature_file_text3 ++ field_or (lit "Web") platform ++
              feature_file_text4))].
Proof.
  rewrite generate_feature_file_run, complete_trace, joined_feature_file.
  reflexivity.
Qed.

Lemma field_or_cases (fallback : pystr) (v : pytext) :
  (v = PyNone \/ v = PyStr [] -> field_or fallback v = fallback) /\
  (forall s, v = PyStr s -> s <> [] -> field_or fallback v = s).
Proof.
  split.
  - intros [-> | ->]; reflexivity.
  - intros s -> Hne. destruct s; [contradiction | reflexivity].
Qed.

(** C10: the test behind the two fallback sentences is the truth value of
    the string, not whether it is blank.  With a user story and a summary
    made of white space only, and not empty, the prompt that stage 1 sends
    and the prompt that stage 2 sends carry both strings as they are, in
    their fields.  With a user story and a summary that are [None] or the
    empty string, both prompts carry the two fallback sentences there.  In
    general the field holds the fallback exactly when the value is [None]
    or the empty string, and the value itself otherwise. *)
Theorem blank_fields_are_embedded_verbatim
    (rt : runtime) (ui_data_model : pytext) (screen : screen_value)
    (t t1 : trace) (detected : list ui_element)
    (user_story summary : pystr) :
  user_story <> [] -> forallb isspace user_story = true ->
  summary <> [] -> forallb isspace summary = true ->
  extract_ui_elements rt screen t = (Return detected, t1) ->
  snd (generate_ui_data_model rt (PyStr user_story) (PyStr summary) screen t) =
    t1 ++ [ChatCompletion
             (chat_request ui_data_model_system
                (ui_data_model_text0 ++ user_story ++
                 ui_data_model_text1 ++ summary ++
                 ui_data_model_text2 ++
                 match detected with
                 | [] => no_ui_elements
                 | _ :: _ => repr_elements rt detected
                 end ++ ui_data_model_text3))] /\
  snd (generate_gherkin_from_ui rt ui_data_model
         (PyStr user_story) (PyStr summary) t) =
    t ++ [ChatCompletion
            (chat_request gherkin_system
               (gherkin_text0 ++ user_story ++
                gherkin_text1 ++ summary ++
                gherkin_text2 ++ format ui_data_model ++ gherkin_text3))] /\
  (forall us sm : pytext,
      (us = PyNone \/ us = PyStr []) -> (sm = PyNone \/ sm = PyStr []) ->
      snd (generate_ui_data_model rt us sm screen t) =
        t1 ++ [ChatCompletion
                 (chat_request ui_data_model_system
                    (ui_data_model_text0 ++ no_user_story ++
                     ui_data_model_text1 ++ no_summary ++
                     ui_data_model_text2 ++
                     match detected with
                     | [] => no_ui_elements
                     | _ :: _ => repr_elements rt detected
                     end ++ ui_data_model_text3))] /\
      snd (generate_gherkin_from_ui rt ui_data_model us sm t) =
        t ++ [ChatCompletion
                (chat_request gherkin_system
                   (gherkin_text0 ++ no_user_story ++
                    gherkin_text1 ++ no_summary ++
                    gherkin_text2 ++ format ui_data_model ++ gherkin_text3))]) /\
  (forall us sm : pytext,
      snd (generate_ui_data_model rt us sm screen t) =
        t1 ++ [ChatCompletion
                 (chat_request ui_data_model_system
                    (ui_data_model_text0 ++ field_or no_user_story us ++
                     ui_data_model_text1 ++ field_or no_summary sm ++
                     ui_data_model_text2 ++
                     match detected with
                     | [] => no_ui_elements
                     | _ :: _ => repr_elements rt detected
                     end ++ ui_data_model_text3))] /\
      snd (generate_gherkin_from_ui rt ui_data_model us sm t) =
        t ++ [ChatCompletion
                (chat_request gherkin_system
                   (gherkin_text0 ++ field_or no_user_story us ++
                    gherkin_text1 ++ field_or no_summary sm ++
                    gherkin_text2 ++ format ui_data_model ++ gherkin_text3))]) /\
  (forall fallback v,
      (v = PyNone \/ v = PyStr [] -> field_or fallback v = fallback) /\
      (forall s, v = PyStr s -> s <> [] -> field_or fallback v = s)).
Proof.
  intros Hu _ Hs _ Hd.
  split; [|split; [|split; [|split]]].
  - rewrite (generate_ui_data_model_request _ _ _ _ _ Hd).
    destruct user_story; [contradiction|]. destruct summary; [contradiction|].
    reflexivity.
  - rewrite generate_gherkin_from_ui_request.
    destruct user_story; [contradiction|]. destruct summary; [contradiction|].
    reflexivity.
  - intros us sm Hus Hsm.
    rewrite (generate_ui_data_model_request _ _ _ _ _ Hd).
    rewrite generate_gherkin_from_ui_request.
    rewrite (proj1 (field_or_cases no_user_story us) Hus).
    rewrite (proj1 (field_or_cases no_summary sm) Hsm).
    split; reflexivity.
  - intros us sm. split.
    + apply (generate_ui_data_model_request _ _ _ _ _ Hd).
    + apply generate_gherkin_from_ui_request.
  - intros fallback v. apply field_or_cases.
Qed.

Lemma blank_fields_are_embedded_verbatim_witness :
  snd (generate_ui_data_model quiet_runtime
         (PyStr (lit "   ")) (PyStr [9; 10]%N) ScreenNone []) =
    [] ++ [ChatCompletion
             (chat_request ui_data_model_system
                (ui_data_model_text0 ++ lit "   " ++
                 ui_data_model_text1 ++ [9; 10]%N ++
                 ui_data_model_text2 ++ no_ui_elements ++
                 ui_data_model_text3))] /\
  snd (generate_gherkin_from_ui quiet_runtime (PyStr (lit "{}"))
         (PyStr (lit "   ")) (PyStr [9; 10]%N) []) =
    [] ++ [ChatCompletion
             (chat_request gherkin_system
                (gherkin_text0 ++ lit "   " ++
                 gherkin_text1 ++ [9; 10]%N ++
                 gherkin_text2 ++ format (PyStr (lit "{}")) ++ gherkin_text3))].
Proof.
  assert (Hu : lit "   " <> []) by discriminate.
  assert (Hs : [9; 10]%N <> []) by discriminate.
  destruct (@blank_fields_are_embedded_verbatim quiet_runtime (PyStr (lit "{}"))
              ScreenNone [] [] [] (lit "   ") [9; 10]%N
              Hu eq_refl Hs eq_refl eq_refl) as [H1 [H2 _]].
  split; [exact H1 | exact H2].
Defined.

Lemma completion_raises_complete rt system prompt t e :
  completion_raises rt (complete rt system prompt) t e ->
  chat_completions_create rt t (chat_request system prompt) = Raise e.
Proof.
  intros [t' [req [Htrace Hraise]]]. rewrite complete_trace in Htrace.
  apply app_inj_tail in Htrace as [<- Hreq].
  injection Hreq as <-. exact Hraise.
Qed.

Lemma complete_when_raises rt system prompt t e :
  chat_completions_create rt t (chat_request system prompt) = Raise e ->
  complete rt system prompt t =
  (Return (rendered_failure e), t ++ [ChatCompletion (chat_request system prompt)]).
Proof. intros H. now rewrite complete_run, H. Qed.

(** C4: [generate_test_cases] does not look at what its first argument
    is.  Given the error text a failed stage 2 returned, it composes its
    prompt with that text in the story field, unchanged, and makes its one
    completion call with it. *)
Theorem test_cases_stage_embeds_error_text
    (rt : runtime) (ui_data_model user_story summary platform technology : pytext)
    (t : trace) (e : exn) :
  completion_raises rt
    (generate_gherkin_from_ui rt ui_data_model user_story summary) t e ->
  exists err t2,
    generate_gherkin_from_ui rt ui_data_model user_story summary t =
      (Return err, t2) /\
    err = rendered_failure e /\
    let prompt :=
      test_cases_text0 ++ err ++ test_cases_text1 ++ format platform ++
      test_cases_text2 ++ format technology ++ test_cases_text3 in
    generate_test_cases rt (PyStr err) platform technology t2 =
      complete rt test_cases_system prompt t2 /\
    snd (generate_test_cases rt (PyStr err) platform technology t2) =
      t2 ++ [ChatCompletion (chat_request test_cases_system prompt)] /\
    formatted_values (test_cases_fstring (PyStr err) platform technology) =
      [err; format platform; format technology] /\
    contains prompt err = true.
Proof.
  intros H. apply completion_raises_complete in H.
  unfold generate_gherkin_from_ui. rewrite (complete_when_raises _ _ _ _ H).
  eexists; eexists. split; [reflexivity|]. split; [reflexivity|].
  cbv zeta. unfold generate_test_cases.
  rewrite joined_test_cases. cbn [format].
  split; [reflexivity|]. split; [apply complete_trace|].
  split; [reflexivity|]. apply contains_app.
Qed.

Lemma test_cases_stage_embeds_error_text_witness :
  exists err t2,
    generate_gherkin_from_ui (rejecting_runtime OpenAIError)
      (PyStr (lit "{}")) PyNone PyNone [] = (Return err, t2) /\
    err = rendered_failure
            {| exn_class_of := OpenAIError; exn_str := lit "quota exceeded" |} /\
    let prompt :=
      test_cases_text0 ++ err ++ test_cases_text1 ++ format (PyStr (lit "Web")) ++
      test_cases_text2 ++ format PyNone ++ test_cases_text3 in
    generate_test_cases (rejecting_runtime OpenAIError) (PyStr err)
      (PyStr (lit "Web")) PyNone t2 =
      complete (rejecting_runtime OpenAIError) test_cases_system prompt t2 /\
    snd (generate_test_cases (rejecting_runtime OpenAIError) (PyStr err)
           (PyStr (lit "Web")) PyNone t2) =
      t2 ++ [ChatCompletion (chat_request test_cases_system prompt)] /\
    formatted_values (test_cases_fstring (PyStr err) (PyStr (lit "Web")) PyNone) =
      [err; format (PyStr (lit "Web")); format PyNone] /\
    contains prompt err = true.
Proof.
  apply test_cases_stage_embeds_error_text.
  eexists; eexists. split; [apply complete_trace | reflexivity].
Defined.

(** C5 (as amended): in the prompts the four stages send, a fallback
    text stands in for an empty value ([None] or the empty string) in the
    user story and the summary of stages 1 and 2, in the detected elements
    of stage 1 when nothing was detected, and in the platform of stage 4.
    The other fields, which are the UI data model of stage 2, the three
    fields of stage 3, and the test cases and the step format of stage 4,
    are formatted as they are, with no fallback: the empty string stays
    empty and [None] is written as the word None. *)
Theorem fallback_fields_of_the_prompts
    (rt : runtime) (screen : screen_value)
    (user_story summary ui_data_model gherkin_story platform technology
       test_cases step_definition_format : pytext) (t : trace) :
  (if no_image screen then
     snd (generate_ui_data_model rt user_story summary screen t) =
       t ++ [ChatCompletion
               (chat_request ui_data_model_system
                  (ui_data_model_text0 ++ field_or no_user_story user_story ++
                   ui_data_model_text1 ++ field_or no_summary summary ++
                   ui_data_model_text2 ++ no_ui_elements ++
                   ui_data_model_text3))]
   else
     match reader_readtext rt t (np_array screen) with
     | Return ds =>
         snd (generate_ui_data_model rt user_story summary screen t) =
           t ++ [Readtext (np_array screen);
                 ChatCompletion
                   (chat_request ui_data_model_system
                      (ui_data_model_text0 ++ field_or no_user_story user_story ++
                       ui_data_model_text1 ++ field_or no_summary summary ++
                       ui_data_model_text2 ++
                       match List.map element_of (filter confident ds) with
                       | [] => no_ui_elements
                       | kept => repr_elements rt kept
                       end ++ ui_data_model_text3))]
     | Raise _ =>
         snd (generate_ui_data_model rt user_story summary screen t) =
           t ++ [Readtext (np_array screen)]
     end) /\
  snd (generate_gherkin_from_ui rt ui_data_model user_story summary t) =
    t ++ [ChatCompletion
            (chat_request gherkin_system
               (gherkin_text0 ++ field_or no_user_story user_story ++
                gherkin_text1 ++ field_or no_summary summary ++
                gherkin_text2 ++ format ui_data_model ++ gherkin_text3))] /\
  snd (generate_test_cases rt gherkin_story platform technology t) =
    t ++ [ChatCompletion
            (chat_request test_cases_system
               (test_cases_text0 ++ format gherkin_story ++
                test_cases_text1 ++ format platform ++
                test_cases_text2 ++ format technology ++ test_cases_text3))] /\
  snd (generate_feature_file rt test_cases platform step_definition_format t) =
    t ++ [ChatCompletion
            (chat_request feature_file_system
               (feature_file_text0 ++ format test_cases ++
                feature_file_text1 ++ field_or (lit "Web") platform ++
                feature_file_text2 ++ format step_definition_format ++
                feature_file_text3 ++ field_or (lit "Web") platform ++
                feature_file_text4))] /\
  (forall fallback v,
      (v = PyNone \/ v = PyStr [] -> field_or fallback v = fallback) /\
      (forall s, v = PyStr s -> s <> [] -> field_or fallback v = s)) /\
  format PyNone = lit "None" /\
  (forall s, format (PyStr s) = s).
Proof.
  split; [|split; [|split; [|split; [|split; [|split]]]]].
  - destruct (no_image screen) eqn:Himg.
    + rewrite (@generate_ui_data_model_request _ _ _ _ _ [] t);
        [reflexivity | now apply extract_ui_elements_no_image].
    + pose proof (extract_ui_elements_image rt screen t Himg) as Hx.
      destruct (reader_readtext rt t (np_array screen)) as [ds|e].
      * rewrite (generate_ui_data_model_request _ _ _ _ _ Hx).
        rewrite <- app_assoc. cbn [app].
        now destruct (List.map element_of (filter confident ds)).
      * rewrite generate_ui_data_model_run, Hx. reflexivity.
  - apply generate_gherkin_from_ui_request.
  - apply generate_test_cases_request.
  - apply generate_feature_file_request.
  - intros fallback v. apply field_or_cases.
  - reflexivity.
  - reflexivity.
Qed.

(** C5 as it is written fails: with an empty Gherkin story, no platform
    and an empty technology, the fields of the stage 3 prompt are the
    empty string, the word None and the empty string. *)
Lemma test_cases_fields_have_no_fallback :
  formatted_values (test_cases_fstring (PyStr []) PyNone (PyStr [])) =
    [[]; lit "None"; []] /\
  ~ no_empty_field (test_cases_fstring (PyStr []) PyNone (PyStr [])).
Proof.
  split; [reflexivity|].
  intros H. inversion H as [|s l Hs _]. now apply Hs.
Qed.

(** ** The listeners *)

(** C9: the listener of the Gherkin button names one input, the stage 1
    output, where [generate_gherkin_from_ui] declares three parameters
    without a default; the user story and the summary are not passed, and
    a click ends in a [TypeError] before the stage body runs.  The three
    other listeners pass a value for every parameter. *)
Theorem gherkin_button_passes_one_input
    (rt : runtime) (ui : ui_state) (t : trace) :
  inputs generate_gherkin_btn = [ui_data_model_output] /\
  required (signature_of (fn generate_gherkin_btn)) =
    ["ui_data_model"; "user_story"; "summary"]%string /\
  parameters_filled generate_gherkin_btn = ["ui_data_model"]%string /\
  fills_required generate_gherkin_btn = false /\
  click rt generate_gherkin_btn ui t =
    (Raise {| exn_class_of := TypeError;
              exn_str := lit "generate_gherkin_from_ui() missing 2 required positional arguments: 'user_story' and 'summary'" |},
     t) /\
  fills_required generate_ui_btn = true /\
  fills_required generate_test_cases_btn = true /\
  fills_required generate_feature_file_btn = true.
Proof. repeat split. Qed.

(** ** The stage boundary *)

(** C3 as it is written fails: stage 1 runs the OCR engine outside its
    [try] block, and an exception of the engine reaches the caller. *)
Lemma ocr_failure_reaches_the_caller :
  generate_ui_data_model failing_reader_runtime
    (PyStr (lit "As a user, I want to log in")) (PyStr []) pixel_image [] =
  (Raise {| exn_class_of := OtherException; exn_str := lit "CUDA out of memory" |},
   [Readtext (np_array pixel_image)]).
Proof. reflexivity. Qed.

Lemma run_stage_raises rt c t e :
  fst (run_stage rt c t) = Raise e <->
  exists user_story summary screen,
    c = Call_ui_data_model user_story summary screen /\
    no_image screen = false /\
    reader_readtext rt t (np_array screen) = Raise e.
Proof.
  split.
  - destruct c as [us sm screen | udm us sm | g p tch | tc p fmt]; simpl.
    + rewrite generate_ui_data_model_run. intros H.
      exists us, sm, screen. split; [reflexivity|].
      destruct (no_image screen) eqn:Himg.
      * rewrite extract_ui_elements_no_image in H by assumption.
        rewrite complete_run in H. discriminate.
      * split; [reflexivity|].
        rewrite extract_ui_elements_image in H by assumption.
        destruct (reader_readtext rt t (np_array screen)).
        -- rewrite complete_run in H. discriminate.
        -- simpl in H. congruence.
    + unfold generate_gherkin_from_ui. rewrite complete_run. discriminate.
    + unfold generate_test_cases. rewrite complete_run. discriminate.
    + rewrite generate_feature_file_run, complete_run. discriminate.
  - intros [us [sm [screen [-> [Himg Hread]]]]]. simpl.
    rewrite generate_ui_data_model_run, extract_ui_elements_image by assumption.
    now rewrite Hread.
Qed.

(** C3 (as amended): no exception of the completion call, and none raised
    while its response is read, leaves a stage: the stage returns the
    rendering of the failure as text.  Stages 2 to 4 never raise.  Stage 1
    raises exactly when the OCR engine raises on an image it was given,
    and then with the engine's exception. *)
Theorem stage_boundary (rt : runtime) (c : invocation) (t : trace) :
  (forall e,
      fst (run_stage rt c t) = Raise e <->
      exists user_story summary screen,
        c = Call_ui_data_model user_story summary screen /\
        no_image screen = false /\
        reader_readtext rt t (np_array screen) = Raise e) /\
  (forall t1 req,
      snd (run_stage rt c t) = t1 ++ [ChatCompletion req] ->
      exists text,
        fst (run_stage rt c t) = Return text /\
        (forall e, chat_completions_create rt t1 req = Raise e ->
                   text = rendered_failure e) /\
        (forall r e, chat_completions_create rt t1 req = Return r ->
                     first_content_stripped r = Raise e ->
                     text = rendered_failure e)).
Proof.
  split; [intros e; apply run_stage_raises|].
  intros t1 req Htrace.
  assert (Hc : forall system prompt t0,
             run_stage rt c t = complete rt system prompt t0 ->
             exists text,
               fst (run_stage rt c t) = Return text /\
               (forall e, chat_completions_create rt t1 req = Raise e ->
                          text = rendered_failure e) /\
               (forall r e, chat_completions_create rt t1 req = Return r ->
                            first_content_stripped r = Raise e ->
                            text = rendered_failure e)).
  { intros system prompt t0 Hrun. rewrite Hrun in Htrace |- *.
    rewrite complete_trace in Htrace.
    apply app_inj_tail in Htrace as [-> Hreq]. injection Hreq as <-.
    rewrite complete_run. eexists. split; [reflexivity|].
    split.
    - intros e He. now rewrite He.
    - intros r e Hr He. now rewrite Hr, He. }
  destruct c as [us sm screen | udm us sm | g p tch | tc p fmt]; simpl in *.
  - rewrite generate_ui_data_model_run in *.
    destruct (extract_ui_elements rt screen t) as [[detected|e] t0] eqn:Hd.
    + eapply Hc; reflexivity.
    + exfalso. simpl in Htrace.
      destruct (no_image screen) eqn:Himg.
      * rewrite extract_ui_elements_no_image in Hd by assumption. discriminate.
      * rewrite extract_ui_elements_image in Hd by assumption.
        injection Hd as _ <-.
        apply app_inj_tail in Htrace as [_ Hev]. discriminate.
  - eapply Hc; reflexivity.
  - eapply Hc; reflexivity.
  - eapply Hc. apply generate_feature_file_run.
Qed.

(** ** JSON text of a failure *)

Lemma hexvalue_hexdigit (d : N) : (d < 16)%N -> hexvalue (hexdigit d) = Some d.
Proof.
  intros H. unfold hexvalue, hexdigit.
  destruct (d <? 10)%N eqn:Hd.
  - apply N.ltb_lt in Hd.
    replace ((48 <=? 48 + d) && (48 + d <=? 57))%N with true.
    + f_equal. lia.
    + symmetry. apply andb_true_intro. split; apply N.leb_le; lia.
  - apply N.ltb_ge in Hd.
    replace ((48 <=? 87 + d) && (87 + d <=? 57))%N with false.
    + replace ((97 <=? 87 + d) && (87 + d <=? 102))%N with true.
      * f_equal. lia.
      * symmetry. apply andb_true_intro. split; apply N.leb_le; lia.
    + symmetry. apply andb_false_intro2. apply N.leb_gt. lia.
Qed.

Lemma nibble_lt (n : N) : (N.land n 15 < 16)%N.
Proof.
  change 15%N with (N.ones 4). rewrite N.land_ones.
  apply N.mod_lt. discriminate.
Qed.

Lemma nibbles_sum (n : N) :
  (n < 65536)%N ->
  (((N.land (N.shiftr n 12) 15 * 16 + N.land (N.shiftr n 8) 15) * 16 +
    N.land (N.shiftr n 4) 15) * 16 + N.land n 15 = n)%N.
Proof.
  intros H. change 15%N with (N.ones 4). rewrite !N.land_ones.
  rewrite !N.shiftr_div_pow2.
  change (2 ^ 12)%N with 4096%N. change (2 ^ 8)%N with 256%N.
  change (2 ^ 4)%N with 16%N.
  zify. Z.to_euclidean_division_equations. lia.
Qed.

Lemma decode_format_04x (n : N) :
  (n < 65536)%N ->
  decode_uXXXX (hexdigit (N.land (N.shiftr n 12) 15))
               (hexdigit (N.land (N.shiftr n 8) 15))
               (hexdigit (N.land (N.shiftr n 4) 15))
               (hexdigit (N.land n 15)) = Some n.
Proof.
  intros H. unfold decode_uXXXX.
  rewrite !hexvalue_hexdigit by apply nibble_lt.
  now rewrite nibbles_sum.
Qed.

Lemma lor_low_bits (base x : N) :
  N.land base 1023 = 0%N ->
  N.lor base (N.land x 1023) = (base + N.land x 1023)%N /\
  (N.land x 1023 < 1024)%N.
Proof.
  intros Hb. split.
  - assert (Hd : N.land base (N.land x 1023) = 0%N).
    { rewrite (N.land_comm x), N.land_assoc, Hb. apply N.land_0_l. }
    rewrite <- (N.lxor_lor _ _ Hd). symmetry. now apply N.add_nocarry_lxor.
  - change 1023%N with (N.ones 10). rewrite N.land_ones.
    apply N.mod_lt. discriminate.
Qed.

Lemma high_half (x : N) :
  is_high_surrogate (N.lor 55296 (N.land x 1023)) = true /\
  (N.lor 55296 (N.land x 1023) < 65536)%N.
Proof.
  destruct (lor_low_bits 55296 x eq_refl) as [-> Hlt].
  unfold is_high_surrogate. split; [|lia].
  apply andb_true_intro; split; apply N.leb_le; lia.
Qed.

Lemma low_half (x : N) :
  is_low_surrogate (N.lor 56320 (N.land x 1023)) = true /\
  (N.lor 56320 (N.land x 1023) < 65536)%N.
Proof.
  destruct (lor_low_bits 56320 x eq_refl) as [-> Hlt].
  unfold is_low_surrogate. split; [|lia].
  apply andb_true_intro; split; apply N.leb_le; lia.
Qed.

(** Every character is written as one piece, or as two for a character
    above the basic plane. *)
Lemma escape_char_pieces (c : codepoint) :
  exists ps, Forall escaped_piece ps /\ escape_char c = List.concat ps.
Proof.
  unfold escape_char.
  destruct (c =? 92)%N eqn:H92.
  { exists [[92; 92]%N]. split; [|reflexivity].
    repeat constructor. now apply (@piece_short 92 92)%N. }
  destruct (c =? 34)%N eqn:H34.
  { exists [[92; 34]%N]. split; [|reflexivity].
    repeat constructor. now apply (@piece_short 34 34)%N. }
  destruct (c =? 8)%N.
  { exists [[92; 98]%N]. split; [|reflexivity].
    repeat constructor. now apply (@piece_short 98 8)%N. }
  destruct (c =? 12)%N.
  { exists [[92; 102]%N]. split; [|reflexivity].
    repeat constructor. now apply (@piece_short 102 12)%N. }
  destruct (c =? 10)%N.
  { exists [[92; 110]%N]. split; [|reflexivity].
    repeat constructor. now apply (@piece_short 110 10)%N. }
  destruct (c =? 13)%N.
  { exists [[92; 114]%N]. split; [|reflexivity].
    repeat constructor. now apply (@piece_short 114 13)%N. }
  destruct (c =? 9)%N.
  { exists [[92; 116]%N]. split; [|reflexivity].
    repeat constructor. now apply (@piece_short 116 9)%N. }
  apply N.eqb_neq in H92, H34.
  destruct ((32 <=? c) && (c <=? 126))%N eqn:Hp.
  { exists [[c]]. split; [|reflexivity].
    apply andb_prop in Hp as [Hlo _]. apply N.leb_le in Hlo.
    repeat constructor; assumption. }
  destruct (c <? 65536)%N eqn:Hb.
  { exists [92 :: 117 :: format_04x c]%N. split.
    - repeat constructor. now apply N.ltb_lt.
    - reflexivity. }
  cbv zeta.
  exists [92 :: 117 :: format_04x (N.lor 55296 (N.land (N.shiftr (c - 65536) 10) 1023));
          92 :: 117 :: format_04x (N.lor 56320 (N.land (c - 65536) 1023))]%N.
  split.
  - repeat constructor; [apply high_half | apply low_half].
  - reflexivity.
Qed.

Lemma escaped_pieces (s : pystr) :
  exists ps, Forall escaped_piece ps /\ flat_map escape_char s = List.concat ps.
Proof.
  induction s as [|c s [ps [Hps Heq]]]; simpl.
  - exists []. split; [constructor | reflexivity].
  - destruct (escape_char_pieces c) as [qs [Hqs Hc]].
    exists (qs ++ ps). split; [now apply Forall_app|].
    now rewrite concat_app, Hc, Heq.
Qed.

Lemma scan_closing (tail : pystr) : scanstring (34%N :: tail) = Some ([], tail).
Proof. reflexivity. Qed.

Lemma scan_plain (c : codepoint) (r : pystr) :
  c <> 34%N -> c <> 92%N -> (32 <= c)%N ->
  scanstring (c :: r) = cons_char c (scanstring r).
Proof.
  intros H1 H2 H3. cbn [scanstring].
  apply N.eqb_neq in H1, H2. rewrite H1, H2.
  replace (c <? 32)%N with false by (symmetry; apply N.ltb_ge; lia).
  reflexivity.
Qed.

Lemma scan_short (e ch : codepoint) (r : pystr) :
  e <> 117%N -> backslash e = Some ch ->
  scanstring (92%N :: e :: r) = cons_char ch (scanstring r).
Proof.
  intros H1 H2. cbn [scanstring]. apply N.eqb_neq in H1.
  change (92 =? 34)%N with false. change (92 =? 92)%N with true.
  cbv iota. now rewrite H1, H2.
Qed.

(** A [\u] escape that is not the first half of a pair. *)
Lemma scan_unit_alone (n : N) (r : pystr) :
  (n < 65536)%N ->
  is_high_surrogate n = false \/ startswith r [92; 117]%N = false ->
  scanstring (92%N :: 117%N :: format_04x n ++ r) = cons_char n (scanstring r).
Proof.
  intros Hn H. unfold format_04x. cbn [app scanstring].
  change (92 =? 34)%N with false. change (92 =? 92)%N with true.
  change (117 =? 117)%N with true. cbv iota.
  rewrite decode_format_04x by assumption.
  destruct (is_high_surrogate n) eqn:Hh; [|reflexivity].
  destruct H as [H|H]; [discriminate|].
  destruct r as [|b [|u s4]]; try reflexivity.
  cbn [startswith] in H. rewrite andb_true_r in H.
  rewrite (N.eqb_sym b), (N.eqb_sym u), H. reflexivity.
Qed.

(** A [\u] escape of a high surrogate: the scanner looks at what follows. *)
Lemma scan_unit_high (n : N) (s3 : pystr) :
  (n < 65536)%N -> is_high_surrogate n = true ->
  scanstring (92%N :: 117%N :: format_04x n ++ s3) =
  match s3 with
  | b :: u :: s4 =>
      if ((b =? 92) && (u =? 117))%N then
        match s4 with
        | g1 :: g2 :: g3 :: g4 :: s5 =>
            match decode_uXXXX g1 g2 g3 g4 with
            | None => None
            | Some uni2 =>
                if is_low_surrogate uni2 then
                  cons_char (65536 + N.lor (N.shiftl (n - 55296) 10)
                                           (uni2 - 56320))%N
                            (scanstring s5)
                else cons_char n (scanstring s3)
            end
        | _ => None
        end
      else cons_char n (scanstring s3)
  | _ => cons_char n (scanstring s3)
  end.
Proof.
  intros Hn Hh. unfold format_04x. cbn [app scanstring].
  change (92 =? 34)%N with false. change (92 =? 92)%N with true.
  change (117 =? 117)%N with true. cbv iota.
  rewrite decode_format_04x by assumption. rewrite Hh.
  reflexivity.
Qed.

(** A [\u] escape of a high surrogate followed by another [\u] escape. *)
Lemma scan_unit_pair (n n2 : N) (r : pystr) :
  (n < 65536)%N -> (n2 < 65536)%N -> is_high_surrogate n = true ->
  scanstring (92%N :: 117%N :: format_04x n ++ 92%N :: 117%N :: format_04x n2 ++ r) =
  if is_low_surrogate n2
  then cons_char (65536 + N.lor (N.shiftl (n - 55296) 10) (n2 - 56320))%N
                 (scanstring r)
  else cons_char n (scanstring (92%N :: 117%N :: format_04x n2 ++ r)).
Proof.
  intros Hn Hn2 Hh. rewrite scan_unit_high by assumption.
  change (92 =? 92)%N with true. change (117 =? 117)%N with true.
  cbn [andb]. unfold format_04x. cbn [app].
  rewrite decode_format_04x by assumption.
  reflexivity.
Qed.

(** The scanner reads through any sequence of pieces up to the quote
    that closes them. *)
Lemma scan_pieces (k : nat) :
  forall ps : list pystr,
    (List.length ps <= k)%nat -> Forall escaped_piece ps ->
    forall tail, exists v,
      scanstring (List.concat ps ++ 34%N :: tail) = Some (v, tail).
Proof.
  induction k as [|k IH]; intros ps Hlen Hps tail.
  - destruct ps; [|simpl in Hlen; lia]. eexists. apply scan_closing.
  - destruct ps as [|b ps]; [eexists; apply scan_closing|].
    simpl in Hlen. inversion Hps as [|b' ps' Hb Hrest]; subst.
    destruct (IH ps ltac:(lia) Hrest tail) as [v Hv].
    cbn [List.concat]. rewrite <- app_assoc.
    destruct Hb as [c H1 H2 H3 | e ch H1 H2 | n Hn].
    + cbn [app]. rewrite scan_plain, Hv by assumption. now eexists.
    + cbn [app]. rewrite (scan_short _ H1 H2), Hv. now eexists.
    + rewrite <- app_comm_cons. rewrite <- app_comm_cons.
      destruct (is_high_surrogate n) eqn:Hh.
      2:{ rewrite scan_unit_alone, Hv by auto. now eexists. }
      destruct ps as [|b2 ps2].
      { rewrite scan_unit_alone, Hv by auto. now eexists. }
      inversion Hrest as [|b2' ps2' Hb2 Hrest2]; subst.
      destruct Hb2 as [c H1 H2 H3 | e ch H1 H2 | n2 Hn2].
      * rewrite scan_unit_alone, Hv; [now eexists | assumption |].
        right. cbn [List.concat app startswith].
        apply N.eqb_neq in H2. now rewrite (N.eqb_sym 92%N), H2.
      * rewrite scan_unit_alone, Hv; [now eexists | assumption |].
        right. cbn [List.concat app startswith].
        apply N.eqb_neq in H1. rewrite (N.eqb_sym 117%N), H1.
        now rewrite andb_false_r.
      * cbn [List.concat] in Hv |- *. rewrite <- app_assoc in Hv |- *.
        rewrite <- !app_comm_cons in Hv |- *.
        rewrite scan_unit_pair by assumption.
        destruct (is_low_surrogate n2).
        -- simpl in Hlen.
           destruct (IH ps2 ltac:(lia) Hrest2 tail) as [v2 Hv2].
           rewrite Hv2. now eexists.
        -- exists (n :: v). exact (f_equal (cons_char n) Hv).
Qed.

(** What lies between the quotes of an encoded string is read back as a
    string, up to the closing quote. *)
Lemma scan_escaped (s tail : pystr) :
  exists v, scanstring (flat_map escape_char s ++ 34%N :: tail) = Some (v, tail).
Proof.
  destruct (escaped_pieces s) as [ps [Hps ->]].
  now apply (@scan_pieces (List.length ps)).
Qed.

Lemma escape_char_plain (c : codepoint) : plain c = true -> escape_char c = [c].
Proof.
  unfold plain, escape_char. intros H.
  apply andb_prop in H as [H H92]. apply andb_prop in H as [H H34].
  apply negb_true_iff in H92, H34. rewrite H92, H34, H.
  apply andb_prop in H as [Hlo _]. apply N.leb_le in Hlo.
  replace (c =? 8)%N with false by (symmetry; apply N.eqb_neq; lia).
  replace (c =? 12)%N with false by (symmetry; apply N.eqb_neq; lia).
  replace (c =? 10)%N with false by (symmetry; apply N.eqb_neq; lia).
  replace (c =? 13)%N with false by (symmetry; apply N.eqb_neq; lia).
  replace (c =? 9)%N with false by (symmetry; apply N.eqb_neq; lia).
  reflexivity.
Qed.

Lemma escape_plain_prefix (p s : pystr) :
  forallb plain p = true ->
  flat_map escape_char (p ++ s) = p ++ flat_map escape_char s.
Proof.
  induction p as [|c p IH]; simpl; intros H; [reflexivity|].
  apply andb_prop in H as [Hc Hp].
  now rewrite escape_char_plain, IH.
Qed.

Lemma scan_plain_prefix (p r : pystr) :
  forallb plain p = true ->
  scanstring (p ++ r) =
  match scanstring r with
  | Some (v, rest) => Some (p ++ v, rest)
  | None => None
  end.
Proof.
  induction p as [|c p IH]; intros H.
  - cbn [app]. now destruct (scanstring r) as [[v rest]|].
  - cbn [forallb] in H. apply andb_prop in H as [Hc Hp].
    cbn [app]. unfold plain in Hc.
    apply andb_prop in Hc as [Hc H92]. apply andb_prop in Hc as [Hc H34].
    apply andb_prop in Hc as [Hlo _].
    apply negb_true_iff in H92, H34.
    apply N.eqb_neq in H92, H34. apply N.leb_le in Hlo.
    rewrite scan_plain, IH by assumption.
    now destruct (scanstring r) as [[v rest]|].
Qed.

(** The text of a rendered failure, character by character around the
    message. *)
Lemma error_json_text (prefix : pystr) (e : exn) :
  error_json prefix e =
  [123; 10; 32; 32; 32; 32; 34]%N ++ lit "error" ++ [34; 58; 32; 34]%N ++
  flat_map escape_char (prefix ++ exn_str e) ++ [34; 10; 125]%N.
Proof.
  unfold error_json, json_dumps, encode_basestring_ascii.
  cbn [List.map join fst snd repeat].
  change (flat_map escape_char (lit "error")) with (lit "error").
  change (lit "{") with [123%N]. change (lit "}") with [125%N].
  change (lit ": ") with [58; 32]%N.
  repeat (progress (cbn [app]; rewrite <- ?app_assoc)). reflexivity.
Qed.

Lemma skip_ws_skip (c : codepoint) (r : pystr) :
  json_ws c = true -> skip_ws (c :: r) = skip_ws r.
Proof. intros H. cbn [skip_ws]. now rewrite H. Qed.

Lemma skip_ws_stop (c : codepoint) (r : pystr) :
  json_ws c = false -> skip_ws (c :: r) = c :: r.
Proof. intros H. cbn [skip_ws]. now rewrite H. Qed.

Lemma scan_quoted_string (body k rest : pystr) :
  scanstring (body ++ 34%N :: rest) = Some (k, rest) ->
  scan_quoted (34%N :: body ++ 34%N :: rest) = Some (k, skip_ws rest).
Proof.
  intros H. unfold scan_quoted. change (34 =? 34)%N with true.
  cbv iota. now rewrite H.
Qed.

(** The reader on the text of an object with one member, laid out as
    [json.dumps] lays it out with an indent of four. *)
Lemma json_loads_one_member (key value k v : pystr) :
  (forall rest, scanstring (key ++ 34%N :: rest) = Some (k, rest)) ->
  scanstring (value ++ [34; 10; 125]%N) = Some (v, [10; 125]%N) ->
  json_loads
    ([123; 10; 32; 32; 32; 32; 34]%N ++ key ++ [34; 58; 32; 34]%N ++
     value ++ [34; 10; 125]%N) = Some [(k, v)].
Proof.
  intros Hk Hv. unfold json_loads. cbn [app List.length].
  rewrite (@skip_ws_stop 123%N) by reflexivity.
  change (123 =? 123)%N with true. cbv iota.
  rewrite !skip_ws_skip by reflexivity.
  rewrite (@skip_ws_stop 34%N) by reflexivity.
  change (34 =? 125)%N with false. cbv iota.
  match goal with
  | |- context [scan_members (S ?f)] => generalize f; intros fuel
  end.
  cbn [scan_members].
  rewrite (@scan_quoted_string _ _ _ (Hk _)).
  rewrite (@skip_ws_stop 58%N) by reflexivity.
  change (58 =? 58)%N with true. cbv iota.
  rewrite skip_ws_skip by reflexivity.
  rewrite (@skip_ws_stop 34%N) by reflexivity.
  rewrite (@scan_quoted_string _ _ _ Hv).
  rewrite skip_ws_skip by reflexivity.
  rewrite (@skip_ws_stop 125%N) by reflexivity.
  change (125 =? 125)%N with true. cbv iota.
  reflexivity.
Qed.

(** A rendered failure is JSON: one object with the single key [error],
    whose value starts with the prefix the handler wrote. *)
Lemma json_loads_error_json (prefix : pystr) (e : exn) :
  forallb plain prefix = true ->
  exists v, json_loads (error_json prefix e) = Some [(lit "error", prefix ++ v)].
Proof.
  intros Hp. rewrite error_json_text.
  destruct (scan_escaped (exn_str e) [10; 125]%N) as [v Hv].
  exists v. apply json_loads_one_member.
  - intros rest. rewrite scan_plain_prefix by reflexivity.
    now rewrite scan_closing, app_nil_r.
  - rewrite escape_plain_prefix, <- app_assoc by assumption.
    rewrite scan_plain_prefix by assumption.
    now rewrite Hv.
Qed.

(** A stage either ends in its completion block, or is stage 1 stopped
    by the OCR engine. *)
Lemma run_stage_cases rt c t :
  (exists system prompt t0, run_stage rt c t = complete rt system prompt t0) \/
  (exists e image, run_stage rt c t = (Raise e, t ++ [Readtext image])).
Proof.
  destruct c as [us sm screen | udm us sm | g p tch | tc p fmt]; simpl.
  - rewrite generate_ui_data_model_run.
    destruct (no_image screen) eqn:Himg.
    + rewrite extract_ui_elements_no_image by assumption.
      left. eexists _, _, _. reflexivity.
    + rewrite extract_ui_elements_image by assumption.
      destruct (reader_readtext rt t (np_array screen)) as [ds|e].
      * left. eexists _, _, _. reflexivity.
      * right. eexists _, _. reflexivity.
  - left. eexists _, _, _. reflexivity.
  - left. eexists _, _, _. reflexivity.
  - left. eexists _, _, _. apply generate_feature_file_run.
Qed.

Lemma contains_prefix (needle post : pystr) :
  contains (needle ++ post) needle = true.
Proof. exact (contains_app [] needle post). Qed.

(** C1: in each of the four stages, when the completion call raises an
    [OpenAIError] the stage returns text that is JSON, an object with the
    single key [error] whose value contains [OpenAI API error]; when it
    raises any other exception the text has the same shape and the value
    contains [Unexpected error]. *)
Theorem failed_completion_returns_error_json
    (rt : runtime) (c : invocation) (t : trace) (e : exn) :
  completion_raises rt (run_stage rt c) t e ->
  exists text v,
    fst (run_stage rt c t) = Return text /\
    json_loads text = Some [(lit "error", v)] /\
    (isinstance_OpenAIError e = true ->
     contains v (lit "OpenAI API error") = true) /\
    (isinstance_OpenAIError e = false ->
     contains v (lit "Unexpected error") = true).
Proof.
  intros H.
  destruct (run_stage_cases rt c t) as [[system [prompt [t0 Hrun]]] | [e' [image Hrun]]].
  - assert (He : chat_completions_create rt t0 (chat_request system prompt) = Raise e).
    { apply completion_raises_complete.
      destruct H as [t' [req [Htrace Hraise]]]. exists t', req.
      now rewrite <- Hrun. }
    rewrite Hrun, (complete_when_raises _ _ _ _ He). cbn [fst].
    unfold rendered_failure.
    destruct (isinstance_OpenAIError e).
    + destruct (json_loads_error_json (lit "OpenAI API error: ") e eq_refl)
        as [v Hv].
      eexists _, _. split; [reflexivity|]. split; [exact Hv|].
      split; [intros _ | discriminate].
      exact (contains_prefix (lit "OpenAI API error") (lit ": " ++ v)).
    + destruct (json_loads_error_json (lit "Unexpected error: ") e eq_refl)
        as [v Hv].
      eexists _, _. split; [reflexivity|]. split; [exact Hv|].
      split; [discriminate | intros _].
      exact (contains_prefix (lit "Unexpected error") (lit ": " ++ v)).
  - exfalso. destruct H as [t' [req [Htrace _]]].
    rewrite Hrun in Htrace. cbn [snd] in Htrace.
    apply app_inj_tail in Htrace as [_ Hev]. discriminate.
Qed.

Lemma failed_completion_returns_error_json_witness :
  exists text v,
    fst (run_stage (rejecting_runtime OpenAIError)
           (Call_gherkin_from_ui (PyStr (lit "{}")) PyNone PyNone) []) =
      Return text /\
    json_loads text = Some [(lit "error", v)] /\
    (isinstance_OpenAIError
       {| exn_class_of := OpenAIError; exn_str := lit "quota exceeded" |} = true ->
     contains v (lit "OpenAI API error") = true) /\
    (isinstance_OpenAIError
       {| exn_class_of := OpenAIError; exn_str := lit "quota exceeded" |} = false ->
     contains v (lit "Unexpected error") = true).
Proof.
  apply failed_completion_returns_error_json.
  eexists _, _. split; [apply complete_trace | reflexivity].
Defined.

(** ** Reading a failure back *)

Lemma scalar_not_high (c : N) : scalar c = true -> is_high_surrogate c = false.
Proof.
  unfold scalar, is_high_surrogate. intros H.
  apply orb_prop in H as [H | H].
  - apply N.ltb_lt in H. apply andb_false_intro1. apply N.leb_gt. lia.
  - apply andb_prop in H as [H _]. apply N.ltb_lt in H.
    apply andb_false_intro2. apply N.leb_gt. lia.
Qed.

(** The two halves written for a character above the basic plane give
    the character back. *)
Lemma pair_value (c : N) :
  (65536 <= c)%N -> (c < 1114112)%N ->
  (65536 +
   N.lor (N.shiftl (N.lor 55296 (N.land (N.shiftr (c - 65536) 10) 1023) - 55296) 10)
         (N.lor 56320 (N.land (c - 65536) 1023) - 56320) = c)%N.
Proof.
  intros Hlo Hhi.
  destruct (lor_low_bits 55296 (N.shiftr (c - 65536) 10) eq_refl) as [-> _].
  destruct (lor_low_bits 56320 (c - 65536) eq_refl) as [-> _].
  replace (55296 + N.land (N.shiftr (c - 65536) 10) 1023 - 55296)%N
    with (N.land (N.shiftr (c - 65536) 10) 1023) by lia.
  replace (56320 + N.land (c - 65536) 1023 - 56320)%N
    with (N.land (c - 65536) 1023) by lia.
  assert (Hb : N.land (N.shiftl (N.land (N.shiftr (c - 65536) 10) 1023) 10) 1023 = 0%N).
  { change 1023%N with (N.ones 10) at 2. rewrite N.land_ones.
    rewrite N.shiftl_mul_pow2. apply N.Div0.mod_mul. }
  destruct (lor_low_bits _ (c - 65536) Hb) as [-> _].
  rewrite N.shiftl_mul_pow2.
  change 1023%N with (N.ones 10). rewrite !N.land_ones.
  rewrite N.shiftr_div_pow2. change (2 ^ 10)%N with 1024%N.
  zify. Z.to_euclidean_division_equations. lia.
Qed.

(** One character that is a scalar value is read back as itself. *)
Lemma scan_escape_char (c : codepoint) (r : pystr) :
  scalar c = true ->
  scanstring (escape_char c ++ r) = cons_char c (scanstring r).
Proof.
  intros Hs. unfold escape_char.
  destruct (c =? 92)%N eqn:H92.
  { apply N.eqb_eq in H92; subst. now apply scan_short. }
  destruct (c =? 34)%N eqn:H34.
  { apply N.eqb_eq in H34; subst. now apply scan_short. }
  destruct (c =? 8)%N eqn:H8.
  { apply N.eqb_eq in H8; subst. now apply scan_short. }
  destruct (c =? 12)%N eqn:H12.
  { apply N.eqb_eq in H12; subst. now apply scan_short. }
  destruct (c =? 10)%N eqn:H10.
  { apply N.eqb_eq in H10; subst. now apply scan_short. }
  destruct (c =? 13)%N eqn:H13.
  { apply N.eqb_eq in H13; subst. now apply scan_short. }
  destruct (c =? 9)%N eqn:H9.
  { apply N.eqb_eq in H9; subst. now apply scan_short. }
  apply N.eqb_neq in H92, H34.
  destruct ((32 <=? c) && (c <=? 126))%N eqn:Hp.
  { apply andb_prop in Hp as [Hlo _]. apply N.leb_le in Hlo.
    now apply scan_plain. }
  destruct (c <? 65536)%N eqn:Hb.
  { apply N.ltb_lt in Hb. rewrite <- !app_comm_cons.
    apply scan_unit_alone; [assumption|].
    left. now apply scalar_not_high. }
  cbv zeta. apply N.ltb_ge in Hb.
  assert (Hhi : (c < 1114112)%N).
  { unfold scalar in Hs. apply orb_prop in Hs as [H | H].
    - apply N.ltb_lt in H. lia.
    - apply andb_prop in H as [_ H]. now apply N.ltb_lt in H. }
  rewrite <- app_assoc, <- !app_comm_cons.
  rewrite scan_unit_pair; try apply high_half; try apply low_half.
  rewrite (proj1 (low_half (c - 65536))).
  now rewrite pair_value.
Qed.

Lemma scan_escaped_scalar (s tail : pystr) :
  forallb scalar s = true ->
  scanstring (flat_map escape_char s ++ 34%N :: tail) = Some (s, tail).
Proof.
  induction s as [|c s IH]; intros H.
  - apply scan_closing.
  - cbn [forallb] in H. apply andb_prop in H as [Hc Hs].
    cbn [flat_map]. rewrite <- app_assoc.
    rewrite scan_escape_char, IH by assumption. reflexivity.
Qed.

Lemma plain_scalar (p : pystr) :
  forallb plain p = true -> forallb scalar p = true.
Proof.
  induction p as [|c p IH]; [reflexivity|]. cbn [forallb]. intros H.
  apply andb_prop in H as [Hc Hp]. rewrite IH by assumption.
  rewrite andb_true_r. unfold plain in Hc. unfold scalar.
  apply andb_prop in Hc as [Hc _]. apply andb_prop in Hc as [Hc _].
  apply andb_prop in Hc as [_ Hc]. apply N.leb_le in Hc.
  apply orb_true_intro. left. apply N.ltb_lt. lia.
Qed.

Lemma json_loads_error_json_exact (prefix : pystr) (e : exn) :
  forallb plain prefix = true -> forallb scalar (exn_str e) = true ->
  json_loads (error_json prefix e) = Some [(lit "error", prefix ++ exn_str e)].
Proof.
  intros Hp Hs. rewrite error_json_text.
  apply json_loads_one_member.
  - intros rest. rewrite scan_plain_prefix by reflexivity.
    now rewrite scan_closing, app_nil_r.
  - apply scan_escaped_scalar. rewrite forallb_app, Hs.
    now rewrite plain_scalar.
Qed.

Lemma json_loads_rendered_failure (e : exn) :
  forallb scalar (exn_str e) = true ->
  json_loads (rendered_failure e) =
  Some [(lit "error",
         (if isinstance_OpenAIError e then lit "OpenAI API error: "
          else lit "Unexpected error: ") ++ exn_str e)].
Proof.
  intros Hs. unfold rendered_failure.
  destruct (isinstance_OpenAIError e);
    now apply json_loads_error_json_exact.
Qed.

(** X1: the text a stage returns for a caught exception is read back,
    as JSON, to exactly one member: the key [error] and the handler's
    prefix followed by the message of the exception, character for
    character, when the message is made of Unicode scalar values. *)
Theorem rendered_failure_round_trip
    (rt : runtime) (c : invocation) (t : trace) (e : exn) :
  completion_raises rt (run_stage rt c) t e ->
  forallb scalar (exn_str e) = true ->
  exists text,
    fst (run_stage rt c t) = Return text /\
    json_loads text =
      Some [(lit "error",
             (if isinstance_OpenAIError e then lit "OpenAI API error: "
              else lit "Unexpected error: ") ++ exn_str e)].
Proof.
  intros H Hs.
  destruct (run_stage_cases rt c t) as [[system [prompt [t0 Hrun]]] | [e' [image Hrun]]].
  - assert (He : chat_completions_create rt t0 (chat_request system prompt) = Raise e).
    { apply completion_raises_complete.
      destruct H as [t' [req [Htrace Hraise]]]. exists t', req.
      now rewrite <- Hrun. }
    rewrite Hrun, (complete_when_raises _ _ _ _ He). cbn [fst].
    eexists. split; [reflexivity|]. now apply json_loads_rendered_failure.
  - exfalso. destruct H as [t' [req [Htrace _]]].
    rewrite Hrun in Htrace. cbn [snd] in Htrace.
    apply app_inj_tail in Htrace as [_ Hev]. discriminate.
Qed.

Lemma rendered_failure_round_trip_witness :
  exists text,
    fst (run_stage (rejecting_runtime OtherException)
           (Call_test_cases (PyStr (lit "Feature: login")) PyNone PyNone) []) =
      Return text /\
    json_loads text =
      Some [(lit "error", lit "Unexpected error: " ++ lit "quota exceeded")].
Proof.
  apply (@rendered_failure_round_trip (rejecting_runtime OtherException)
           (Call_test_cases (PyStr (lit "Feature: login")) PyNone PyNone) []
           {| exn_class_of := OtherException; exn_str := lit "quota exceeded" |}).
  - eexists _, _. split; [apply complete_trace | reflexivity].
  - reflexivity.
Defined.

Lemma run_stage_when_raises rt c t e :
  completion_raises rt (run_stage rt c) t e ->
  fst (run_stage rt c t) = Return (rendered_failure e).
Proof.
  intros H.
  destruct (run_stage_cases rt c t) as [[system [prompt [t0 Hrun]]] | [e' [image Hrun]]].
  - assert (He : chat_completions_create rt t0 (chat_request system prompt) = Raise e).
    { apply completion_raises_complete.
      destruct H as [t' [req [Htrace Hraise]]]. exists t', req.
      now rewrite <- Hrun. }
    now rewrite Hrun, (complete_when_raises _ _ _ _ He).
  - exfalso. destruct H as [t' [req [Htrace _]]].
    rewrite Hrun in Htrace. cbn [snd] in Htrace.
    apply app_inj_tail in Htrace as [_ Hev]. discriminate.
Qed.

(** What a stage returns, from the answer to its completion call. *)
Lemma run_stage_answer rt c t t1 req :
  snd (run_stage rt c t) = t1 ++ [ChatCompletion req] ->
  fst (run_stage rt c t) =
  Return match chat_completions_create rt t1 req with
         | Return r =>
             match first_content_stripped r with
             | Return text => text
             | Raise e => rendered_failure e
             end
         | Raise e => rendered_failure e
         end.
Proof.
  intros Htrace.
  destruct (run_stage_cases rt c t) as [[system [prompt [t0 Hrun]]] | [e' [image Hrun]]].
  - rewrite Hrun in Htrace |- *. rewrite complete_trace in Htrace.
    apply app_inj_tail in Htrace as [-> Hreq]. injection Hreq as <-.
    now rewrite complete_run.
  - exfalso. rewrite Hrun in Htrace. cbn [snd] in Htrace.
    apply app_inj_tail in Htrace as [_ Hev]. discriminate.
Qed.

(** X2: the text of a failure tells which handler wrote it and what the
    message was.  Two stage runs whose completion calls raised, with
    messages made of scalar values, return the same text only if both
    exceptions are [OpenAIError]s or neither is, and their messages are
    equal. *)
Theorem failure_text_determines_failure
    (rt1 rt2 : runtime) (c1 c2 : invocation) (t1 t2 : trace) (e1 e2 : exn) :
  completion_raises rt1 (run_stage rt1 c1) t1 e1 ->
  completion_raises rt2 (run_stage rt2 c2) t2 e2 ->
  forallb scalar (exn_str e1) = true ->
  forallb scalar (exn_str e2) = true ->
  fst (run_stage rt1 c1 t1) = fst (run_stage rt2 c2 t2) ->
  isinstance_OpenAIError e1 = isinstance_OpenAIError e2 /\
  exn_str e1 = exn_str e2.
Proof.
  intros H1 H2 Hs1 Hs2 Heq.
  rewrite (@run_stage_when_raises _ _ _ _ H1), (@run_stage_when_raises _ _ _ _ H2) in Heq.
  injection Heq as Heq. apply (f_equal json_loads) in Heq.
  rewrite !json_loads_rendered_failure in Heq by assumption.
  injection Heq as Heq.
  destruct (isinstance_OpenAIError e1), (isinstance_OpenAIError e2).
  - split; [reflexivity|]. now apply app_inv_head in Heq.
  - exfalso.
    change (lit "OpenAI API error: ") with (79%N :: lit "penAI API error: ") in Heq.
    change (lit "Unexpected error: ") with (85%N :: lit "nexpected error: ") in Heq.
    cbn [app] in Heq. discriminate.
  - exfalso.
    change (lit "OpenAI API error: ") with (79%N :: lit "penAI API error: ") in Heq.
    change (lit "Unexpected error: ") with (85%N :: lit "nexpected error: ") in Heq.
    cbn [app] in Heq. discriminate.
  - split; [reflexivity|]. now apply app_inv_head in Heq.
Qed.

Lemma failure_text_determines_failure_witness :
  isinstance_OpenAIError
    {| exn_class_of := OpenAIError; exn_str := lit "quota exceeded" |} =
  isinstance_OpenAIError
    {| exn_class_of := OpenAIError; exn_str := lit "quota exceeded" |} /\
  lit "quota exceeded" = lit "quota exceeded".
Proof.
  apply (@failure_text_determines_failure
           (rejecting_runtime OpenAIError) (rejecting_runtime OpenAIError)
           (Call_test_cases (PyStr (lit "Feature: login")) PyNone PyNone)
           (Call_gherkin_from_ui (PyStr (lit "{}")) PyNone PyNone) [] []
           {| exn_class_of := OpenAIError; exn_str := lit "quota exceeded" |}
           {| exn_class_of := OpenAIError; exn_str := lit "quota exceeded" |}).
  - eexists _, _. split; [apply complete_trace | reflexivity].
  - eexists _, _. split; [apply complete_trace | reflexivity].
  - reflexivity.
  - reflexivity.
  - reflexivity.
Defined.

Lemma hexdigit_ascii (d : N) : (d < 16)%N -> ascii_text (hexdigit d) = true.
Proof.
  intros H. unfold ascii_text, hexdigit.
  apply orb_true_intro. left.
  destruct (d <? 10)%N eqn:Hd;
    [apply N.ltb_lt in Hd | apply N.ltb_ge in Hd];
    apply andb_true_intro; split; apply N.leb_le; lia.
Qed.

Lemma format_04x_ascii (n : N) : forallb ascii_text (format_04x n) = true.
Proof.
  unfold format_04x. cbn [forallb].
  now rewrite !hexdigit_ascii by apply nibble_lt.
Qed.

Lemma escape_char_ascii (c : codepoint) :
  forallb ascii_text (escape_char c) = true.
Proof.
  unfold escape_char.
  repeat match goal with
         | |- context [if (c =? ?k)%N then _ else _] =>
             destruct (c =? k)%N; [reflexivity|]
         end.
  destruct ((32 <=? c) && (c <=? 126))%N eqn:Hp.
  { cbn [forallb]. unfold ascii_text. now rewrite Hp. }
  destruct (c <? 65536)%N.
  { cbn [forallb]. now rewrite format_04x_ascii. }
  cbv zeta. rewrite forallb_app. cbn [forallb].
  now rewrite !format_04x_ascii.
Qed.

Lemma escaped_ascii (s : pystr) :
  forallb ascii_text (flat_map escape_char s) = true.
Proof.
  induction s as [|c s IH]; [reflexivity|].
  cbn [flat_map]. now rewrite forallb_app, escape_char_ascii, IH.
Qed.

Lemma rendered_failure_ascii (e : exn) :
  forallb ascii_text (rendered_failure e) = true.
Proof.
  unfold rendered_failure.
  destruct (isinstance_OpenAIError e); rewrite error_json_text;
    rewrite !forallb_app, escaped_ascii; reflexivity.
Qed.

(** X3: the text returned for a caught exception is printable ASCII and
    line feeds only, whatever characters the message of the exception
    holds: [json.dumps] escapes everything else. *)
Theorem failure_text_is_ascii
    (rt : runtime) (c : invocation) (t : trace) (e : exn) :
  completion_raises rt (run_stage rt c) t e ->
  exists text,
    fst (run_stage rt c t) = Return text /\
    forallb ascii_text text = true.
Proof.
  intros H. exists (rendered_failure e).
  split; [now apply run_stage_when_raises | apply rendered_failure_ascii].
Qed.

(** A service that fails with a message outside ASCII. *)
Lemma failure_text_is_ascii_witness :
  exists text,
    fst (run_stage
           {| reader_readtext := fun _ _ => Return [];
              chat_completions_create :=
                fun _ _ => Raise {| exn_class_of := OpenAIError;
                                    exn_str := [233; 9; 128512; 34]%N |};
              repr_elements := fun _ => [] |}
           (Call_test_cases (PyStr (lit "Feature: login")) PyNone PyNone) []) =
      Return text /\
    forallb ascii_text text = true.
Proof.
  eapply failure_text_is_ascii.
  eexists _, _. split; [apply complete_trace | reflexivity].
Defined.

(** ** Reading the response *)

(** X4: a response that cannot be read is reported as an unexpected
    error, not raised.  When the service answers with no choice at all,
    or with a first choice whose content is [None], the stage returns
    the JSON object whose [error] is the message of the [IndexError] or
    of the [AttributeError], after [Unexpected error: ]. *)
Theorem unreadable_response_is_unexpected_error
    (rt : runtime) (c : invocation) (t t1 : trace) (req : request)
    (r : response) :
  snd (run_stage rt c t) = t1 ++ [ChatCompletion req] ->
  chat_completions_create rt t1 req = Return r ->
  (forall text rest, choices r <> Some text :: rest) ->
  exists text,
    fst (run_stage rt c t) = Return text /\
    json_loads text =
      Some [(lit "error",
             match choices r with
             | [] => lit "Unexpected error: list index out of range"
             | _ => lit "Unexpected error: 'NoneType' object has no attribute 'strip'"
             end)].
Proof.
  intros Htrace Hr Hbad. rewrite (@run_stage_answer _ _ _ _ _ Htrace), Hr.
  unfold first_content_stripped.
  destruct (choices r) as [|[text|] rest].
  - eexists. split; [reflexivity|]. now rewrite json_loads_rendered_failure.
  - now elim (Hbad text rest).
  - eexists. split; [reflexivity|]. now rewrite json_loads_rendered_failure.
Qed.

Lemma unreadable_response_is_unexpected_error_witness :
  exists text,
    fst (run_stage
           {| reader_readtext := fun _ _ => Return [];
              chat_completions_create := fun _ _ => Return {| choices := [] |};
              repr_elements := fun _ => [] |}
           (Call_test_cases (PyStr (lit "Feature: login")) PyNone PyNone) []) =
      Return text /\
    json_loads text =
      Some [(lit "error", lit "Unexpected error: list index out of range")].
Proof.
  eapply (@unreadable_response_is_unexpected_error _ _ _ _ _ {| choices := [] |}).
  - apply complete_trace.
  - reflexivity.
  - discriminate.
Defined.

Lemma lstrip_split (s : pystr) :
  exists pre, s = pre ++ lstrip s /\ forallb isspace pre = true.
Proof.
  induction s as [|c s [pre [Heq Hpre]]].
  - exists []. split; reflexivity.
  - cbn [lstrip]. destruct (isspace c) eqn:Hc.
    + exists (c :: pre). split; [cbn [app]; now f_equal|].
      cbn [forallb]. now rewrite Hc.
    + exists []. split; reflexivity.
Qed.

Lemma lstrip_no_leading (s : pystr) : starts_with_space (lstrip s) = false.
Proof.
  induction s as [|c s IH]; [reflexivity|].
  cbn [lstrip]. destruct (isspace c) eqn:Hc; [exact IH|].
  cbn [starts_with_space]. exact Hc.
Qed.

Lemma lstrip_fixed (s : pystr) : starts_with_space s = false -> lstrip s = s.
Proof.
  destruct s as [|c s]; [reflexivity|].
  cbn [starts_with_space lstrip]. now intros ->.
Qed.

Lemma lstrip_snoc (s : pystr) (c : codepoint) :
  isspace c = false -> lstrip (s ++ [c]) = lstrip s ++ [c].
Proof.
  intros Hc. induction s as [|x s IH].
  - cbn [app lstrip]. now rewrite Hc.
  - cbn [app lstrip]. now destruct (isspace x).
Qed.

Lemma rstrip_cons (c : codepoint) (s : pystr) :
  isspace c = false -> rstrip (c :: s) = c :: rstrip s.
Proof.
  intros Hc. unfold rstrip. cbn [rev].
  now rewrite lstrip_snoc, rev_app_distr.
Qed.

Lemma forallb_rev (f : N -> bool) (l : pystr) :
  forallb f (rev l) = forallb f l.
Proof.
  induction l as [|x l IH]; [reflexivity|].
  cbn [rev forallb]. rewrite forallb_app, IH. cbn [forallb].
  rewrite andb_true_r. apply andb_comm.
Qed.

Lemma rstrip_split (s : pystr) :
  exists post, s = rstrip s ++ post /\ forallb isspace post = true.
Proof.
  destruct (lstrip_split (rev s)) as [pre [Heq Hpre]].
  exists (rev pre). split.
  - unfold rstrip. rewrite <- rev_app_distr, <- Heq. now rewrite rev_involutive.
  - now rewrite forallb_rev.
Qed.

Lemma strip_no_leading (s : pystr) : starts_with_space (strip s) = false.
Proof.
  unfold strip. pose proof (lstrip_no_leading s) as H.
  destruct (lstrip s) as [|c x]; [reflexivity|].
  cbn [starts_with_space] in H. now rewrite rstrip_cons.
Qed.

Lemma strip_no_trailing (s : pystr) : ends_with_space (strip s) = false.
Proof.
  unfold ends_with_space, strip, rstrip. rewrite rev_involutive.
  apply lstrip_no_leading.
Qed.

Lemma strip_split (s : pystr) :
  exists pre post,
    s = pre ++ strip s ++ post /\
    forallb isspace pre = true /\ forallb isspace post = true.
Proof.
  destruct (lstrip_split s) as [pre [Hs Hpre]].
  destruct (rstrip_split (lstrip s)) as [post [Hl Hpost]].
  exists pre, post. unfold strip. now rewrite <- Hl.
Qed.

Lemma strip_fixed (s : pystr) :
  starts_with_space s = false -> ends_with_space s = false -> strip s = s.
Proof.
  intros Hs He. unfold strip. rewrite (lstrip_fixed _ Hs).
  unfold rstrip. rewrite (lstrip_fixed _ He). apply rev_involutive.
Qed.

(** X5: when the service answers with a first choice that has content,
    the stage returns that content without the white space around it:
    the content is the returned text between two runs of white space,
    and the returned text neither starts nor ends with white space.
    The other choices of the response are not read. *)
Theorem answered_stage_returns_stripped_content
    (rt : runtime) (c : invocation) (t t1 : trace) (req : request)
    (r : response) (text : pystr) (others : list (option (list N))) :
  snd (run_stage rt c t) = t1 ++ [ChatCompletion req] ->
  chat_completions_create rt t1 req = Return r ->
  choices r = Some text :: others ->
  exists out pre post,
    fst (run_stage rt c t) = Return out /\
    text = pre ++ out ++ post /\
    forallb isspace pre = true /\ forallb isspace post = true /\
    starts_with_space out = false /\ ends_with_space out = false.
Proof.
  intros Htrace Hr Hc. rewrite (@run_stage_answer _ _ _ _ _ Htrace), Hr.
  unfold first_content_stripped. rewrite Hc.
  destruct (strip_split text) as [pre [post [Heq [Hpre Hpost]]]].
  exists (strip text), pre, post.
  repeat (split; [assumption || reflexivity|]).
  split; [apply strip_no_leading | apply strip_no_trailing].
Qed.

Lemma answered_stage_returns_stripped_content_witness :
  exists out pre post,
    fst (run_stage quiet_runtime
           (Call_feature_file (PyStr (lit "TC-1")) PyNone PyNone) []) =
      Return out /\
    lit " ok " = pre ++ out ++ post /\
    forallb isspace pre = true /\ forallb isspace post = true /\
    starts_with_space out = false /\ ends_with_space out = false.
Proof.
  eapply (@answered_stage_returns_stripped_content quiet_runtime
            (Call_feature_file (PyStr (lit "TC-1")) PyNone PyNone) [] _ _
            (one_choice (lit " ok ")) (lit " ok ") []).
  - cbn [run_stage]. rewrite generate_feature_file_run. apply complete_trace.
  - reflexivity.
  - reflexivity.
Defined.

Lemma rendered_failure_fixed (e : exn) :
  strip (rendered_failure e) = rendered_failure e.
Proof.
  apply strip_fixed.
  - unfold rendered_failure.
    destruct (isinstance_OpenAIError e); now rewrite error_json_text.
  - unfold ends_with_space, rendered_failure.
    destruct (isinstance_OpenAIError e); rewrite error_json_text;
      rewrite !app_assoc, rev_app_distr; reflexivity.
Qed.

(** X6: the text alone does not tell a failure from a success.  A stage
    whose completion call succeeds with the text of a rendered failure
    as content returns exactly what it returns when the call raises
    that exception. *)
Theorem failure_text_can_be_a_success
    (rt : runtime) (c : invocation) (t t1 : trace) (req : request) (e : exn)
    (others : list (option (list N))) :
  snd (run_stage rt c t) = t1 ++ [ChatCompletion req] ->
  chat_completions_create rt t1 req =
    Return {| choices := Some (rendered_failure e) :: others |} ->
  fst (run_stage rt c t) = Return (rendered_failure e).
Proof.
  intros Htrace Hr. rewrite (@run_stage_answer _ _ _ _ _ Htrace), Hr.
  cbn [first_content_stripped choices]. now rewrite rendered_failure_fixed.
Qed.

Lemma failure_text_can_be_a_success_witness :
  fst (run_stage
         {| reader_readtext := fun _ _ => Return [];
            chat_completions_create :=
              fun _ _ =>
                Return (one_choice
                          (rendered_failure
                             {| exn_class_of := OpenAIError;
                                exn_str := lit "quota exceeded" |}));
            repr_elements := fun _ => [] |}
         (Call_test_cases (PyStr (lit "Feature: login")) PyNone PyNone) []) =
  Return (rendered_failure
            {| exn_class_of := OpenAIError; exn_str := lit "quota exceeded" |}).
Proof.
  eapply (@failure_text_can_be_a_success _ _ _ _ _ _ []).
  - apply complete_trace.
  - reflexivity.
Defined.

(** ** The calls a stage makes *)

Lemma chat_request_standard (system prompt : pystr) :
  standard_request (chat_request system prompt).
Proof. split; reflexivity. Qed.

(** X7: the external calls of one stage run.  Stages 2 to 4, and stage 1
    without an image, make one call: the completion request, with the
    model [gpt-4] and a system message followed by a user message.
    Stage 1 with an image first calls the OCR engine once, on
    [np.array(screen)]; the completion request follows if the engine
    returned, and no completion call is made if it raised. *)
Theorem stage_external_calls (rt : runtime) (c : invocation) (t : trace) :
  match c with
  | Call_ui_data_model _ _ screen =>
      if no_image screen then
        exists req, standard_request req /\
                    snd (run_stage rt c t) = t ++ [ChatCompletion req]
      else
        match reader_readtext rt t (np_array screen) with
        | Return _ =>
            exists req, standard_request req /\
                        snd (run_stage rt c t) =
                          t ++ [Readtext (np_array screen); ChatCompletion req]
        | Raise _ =>
            snd (run_stage rt c t) = t ++ [Readtext (np_array screen)]
        end
  | _ =>
      exists req, standard_request req /\
                  snd (run_stage rt c t) = t ++ [ChatCompletion req]
  end.
Proof.
  destruct c as [us sm screen | udm us sm | g p tch | tc p fmt]; cbn [run_stage].
  - rewrite generate_ui_data_model_run.
    destruct (no_image screen) eqn:Himg.
    + rewrite extract_ui_elements_no_image by assumption.
      eexists. split; [apply chat_request_standard | apply complete_trace].
    + rewrite extract_ui_elements_image by assumption.
      destruct (reader_readtext rt t (np_array screen)); [|reflexivity].
      eexists. split; [apply chat_request_standard|].
      rewrite complete_trace, <- app_assoc. reflexivity.
  - eexists. split; [apply chat_request_standard | apply complete_trace].
  - eexists. split; [apply chat_request_standard | apply complete_trace].
  - rewrite generate_feature_file_run.
    eexists. split; [apply chat_request_standard | apply complete_trace].
Qed.

Lemma size_zero_width (im : pil_image) :
  width im = 0%N -> size (np_array (ScreenImage im)) = 0%N.
Proof.
  intros Hw. unfold size. cbn [np_array shape].
  destruct (bands im <=? 1)%N; cbn [fold_right]; rewrite Hw; lia.
Qed.

(** X8: the size test of the guard covers numpy arrays only.  A PIL
    image always reaches the OCR engine, also when it has no pixels: for
    an image of width zero, [readtext] is called on an array of size
    zero. *)
Theorem empty_pil_image_reaches_ocr
    (rt : runtime) (im : pil_image) (t : trace) :
  width im = 0%N ->
  size (np_array (ScreenImage im)) = 0%N /\
  snd (extract_ui_elements rt (ScreenImage im) t) =
    t ++ [Readtext (np_array (ScreenImage im))] /\
  snd (generate_ui_data_model rt PyNone PyNone (ScreenImage im) t) <>
    snd (generate_ui_data_model rt PyNone PyNone
           (ScreenArray (np_array (ScreenImage im))) t).
Proof.
  intros Hw. pose proof (size_zero_width im Hw) as Hsize.
  split; [assumption|]. split.
  - now rewrite extract_ui_elements_image.
  - rewrite !generate_ui_data_model_run.
    rewrite extract_ui_elements_image by reflexivity.
    rewrite (@extract_ui_elements_no_image rt (ScreenArray _))
      by (cbn [no_image]; now apply N.eqb_eq).
    rewrite complete_trace.
    destruct (reader_readtext rt t (np_array (ScreenImage im))) as [ds|e].
    + rewrite complete_trace. intros H.
      apply app_inj_tail in H as [H _].
      apply (f_equal (@List.length event)) in H.
      rewrite length_app in H. cbn [List.length] in H. lia.
    + cbn [snd]. intros H. apply app_inj_tail in H as [_ H]. discriminate.
Qed.

Lemma empty_pil_image_reaches_ocr_witness :
  size (np_array (ScreenImage empty_image)) = 0%N /\
  snd (extract_ui_elements quiet_runtime (ScreenImage empty_image) []) =
    [] ++ [Readtext (np_array (ScreenImage empty_image))] /\
  snd (generate_ui_data_model quiet_runtime PyNone PyNone
         (ScreenImage empty_image) []) <>
    snd (generate_ui_data_model quiet_runtime PyNone PyNone
           (ScreenArray (np_array (ScreenImage empty_image))) []).
Proof.
  exact (@empty_pil_image_reaches_ocr quiet_runtime empty_image [] eq_refl).
Defined.

(** X9: when at least one detection is above the threshold, the prompt
    of stage 1 carries the text of the list of kept elements, in the
    order of the OCR result, in the detected elements field; the request
    follows the one OCR call. *)
Theorem confident_detections_are_embedded
    (rt : runtime) (user_story summary : pytext) (screen : screen_value)
    (t : trace) (ds : list detection) :
  no_image screen = false ->
  reader_readtext rt t (np_array screen) = Return ds ->
  filter confident ds <> [] ->
  snd (generate_ui_data_model rt user_story summary screen t) =
    t ++ [Readtext (np_array screen);
          ChatCompletion
            (chat_request ui_data_model_system
               (ui_data_model_text0 ++ field_or no_user_story user_story ++
                ui_data_model_text1 ++ field_or no_summary summary ++
                ui_data_model_text2 ++
                repr_elements rt (List.map element_of (filter confident ds)) ++
                ui_data_model_text3))].
Proof.
  intros Himg Hread Hsome.
  rewrite generate_ui_data_model_run, extract_ui_elements_image by assumption.
  rewrite Hread, complete_trace, joined_ui_data_model, <- app_assoc.
  destruct (filter confident ds) as [|d kept]; [contradiction|].
  reflexivity.
Qed.

Lemma confident_detections_are_embedded_witness :
  snd (generate_ui_data_model
         (reading_runtime [(box, lit "Login", 0.9%float); (box, lit "x", 0.3%float)])
         PyNone PyNone pixel_image []) =
  [] ++ [Readtext (np_array pixel_image);
         ChatCompletion
           (chat_request ui_data_model_system
              (ui_data_model_text0 ++ field_or no_user_story PyNone ++
               ui_data_model_text1 ++ field_or no_summary PyNone ++
               ui_data_model_text2 ++ lit "[...]" ++ ui_data_model_text3))].
Proof.
  refine (@confident_detections_are_embedded
            (reading_runtime [(box, lit "Login", 0.9%float); (box, lit "x", 0.3%float)])
            PyNone PyNone pixel_image [] _ eq_refl eq_refl _).
  discriminate.
Defined.

(** X10: stages 2 and 4 pass on what the stage before them returned as
    it is: whatever text is given as the UI data model, or as the test
    cases, is part of the prompt of the one completion request made. *)
Theorem prior_output_is_embedded
    (rt : runtime) (text : pystr)
    (user_story summary platform step_definition_format : pytext) (t : trace) :
  (exists prompt,
      snd (generate_gherkin_from_ui rt (PyStr text) user_story summary t) =
        t ++ [ChatCompletion (chat_request gherkin_system prompt)] /\
      contains prompt text = true) /\
  (exists prompt,
      snd (generate_feature_file rt (PyStr text) platform
             step_definition_format t) =
        t ++ [ChatCompletion (chat_request feature_file_system prompt)] /\
      contains prompt text = true).
Proof.
  split.
  - eexists. split; [apply complete_trace|].
    unfold gherkin_fstring. unjoin. cbn [format].
    rewrite !app_assoc. rewrite <- (app_assoc _ text).
    apply contains_app.
  - rewrite generate_feature_file_run.
    eexists. split; [apply complete_trace|].
    rewrite joined_feature_file. cbn [format].
    apply (contains_app feature_file_text0 text).
Qed.

(** ** Clicks *)

Lemma set_value_same (ui : ui_state) (w : widget) (v : value) :
  set_value ui w v w = v.
Proof. unfold set_value. now destruct w. Qed.

Lemma widget_eqb_eq (a b : widget) : widget_eqb a b = true -> a = b.
Proof. destruct a, b; simpl; intros H; (reflexivity || discriminate). Qed.

Lemma set_value_other (ui : ui_state) (w w' : widget) (v : value) :
  w' <> w -> set_value ui w v w' = ui w'.
Proof.
  intros Hne. unfold set_value.
  destruct (widget_eqb w w') eqn:He; [|reflexivity].
  apply widget_eqb_eq in He. now elim Hne.
Qed.

Lemma click_result rt l ui t :
  click rt l ui t =
  match call rt (fn l) (List.map ui (inputs l)) t with
  | (Return returned, t') =>
      (Return (set_value ui (outputs l) (Text (PyStr returned))), t')
  | (Raise e, t') => (Raise e, t')
  end.
Proof. reflexivity. Qed.

Lemma click_test_cases rt ui t g p tch :
  ui gherkin_output = Text g -> ui platform_input = Text p ->
  ui technology_input = Text tch ->
  call rt (fn generate_test_cases_btn)
    (List.map ui (inputs generate_test_cases_btn)) t =
  generate_test_cases rt g p tch t.
Proof. intros Hg Hp Ht. cbn [List.map inputs generate_test_cases_btn]. now rewrite Hg, Hp, Ht. Qed.

Lemma click_feature_file rt ui t tc p fmt :
  ui test_case_output = Text tc -> ui platform_input = Text p ->
  ui step_definition_input = Text fmt ->
  call rt (fn generate_feature_file_btn)
    (List.map ui (inputs generate_feature_file_btn)) t =
  generate_feature_file rt tc p fmt t.
Proof. intros Hc Hp Hf. cbn [List.map inputs generate_feature_file_btn]. now rewrite Hc, Hp, Hf. Qed.

(** X11: with every widget holding a value of its kind, a click on the
    test cases button and a click on the feature file button never raise:
    each makes one completion request and writes the text the stage
    returned into its own output box. *)
Theorem text_buttons_always_answer (rt : runtime) (ui : ui_state) (t : trace) :
  well_typed ui ->
  (exists out req,
      standard_request req /\
      click rt generate_test_cases_btn ui t =
        (Return (set_value ui test_case_output (Text (PyStr out))),
         t ++ [ChatCompletion req])) /\
  (exists out req,
      standard_request req /\
      click rt generate_feature_file_btn ui t =
        (Return (set_value ui feature_file_output (Text (PyStr out))),
         t ++ [ChatCompletion req])).
Proof.
  intros Hwt.
  pose proof (Hwt gherkin_output) as [g Hg].
  pose proof (Hwt platform_input) as [p Hp].
  pose proof (Hwt technology_input) as [tch Htch].
  pose proof (Hwt test_case_output) as [tc Htc].
  pose proof (Hwt step_definition_input) as [fmt Hfmt].
  split.
  - rewrite click_result, (click_test_cases rt ui t Hg Hp Htch).
    unfold generate_test_cases. rewrite complete_run.
    eexists _, _. split; [apply chat_request_standard | reflexivity].
  - rewrite click_result, (click_feature_file rt ui t Htc Hp Hfmt).
    rewrite generate_feature_file_run, complete_run.
    eexists _, _. split; [apply chat_request_standard | reflexivity].
Qed.

Lemma fresh_ui_well_typed : well_typed fresh_ui.
Proof. intros w; destruct w; cbn; eexists; reflexivity. Qed.

Lemma text_buttons_always_answer_witness :
  (exists out req,
      standard_request req /\
      click quiet_runtime generate_test_cases_btn fresh_ui [] =
        (Return (set_value fresh_ui test_case_output (Text (PyStr out))),
         [] ++ [ChatCompletion req])) /\
  (exists out req,
      standard_request req /\
      click quiet_runtime generate_feature_file_btn fresh_ui [] =
        (Return (set_value fresh_ui feature_file_output (Text (PyStr out))),
         [] ++ [ChatCompletion req])).
Proof.
  exact (@text_buttons_always_answer quiet_runtime fresh_ui [] fresh_ui_well_typed).
Defined.

(** X12: a click that returns changes one widget, the output box of its
    listener.  For each of the four listeners, what the user entered is
    left as it was, every other box keeps its text, and every widget
    still holds a value of its kind. *)
Theorem click_writes_its_output_only
    (rt : runtime) (l : listener) (ui ui' : ui_state) (t t' : trace) :
  In l [generate_ui_btn; generate_gherkin_btn; generate_test_cases_btn;
        generate_feature_file_btn] ->
  well_typed ui ->
  click rt l ui t = (Return ui', t') ->
  is_input (outputs l) = false /\
  (forall w, w <> outputs l -> ui' w = ui w) /\
  (forall w, is_input w = true -> ui' w = ui w) /\
  (exists out, ui' (outputs l) = Text (PyStr out)) /\
  well_typed ui'.
Proof.
  intros Hl Hwt Hclick. rewrite click_result in Hclick.
  destruct (call rt (fn l) (List.map ui (inputs l)) t) as [[out|e] t0];
    [|discriminate].
  injection Hclick as <- <-.
  assert (Hout : is_input (outputs l) = false).
  { cbn [In] in Hl.
    destruct Hl as [<- | [<- | [<- | [<- | []]]]]; reflexivity. }
  split; [exact Hout|]. split; [|split; [|split]].
  - intros w Hne. now apply set_value_other.
  - intros w Hw. apply set_value_other. intros ->. congruence.
  - exists out. apply set_value_same.
  - intros w. destruct (widget_eqb (outputs l) w) eqn:He.
    + apply widget_eqb_eq in He. subst w.
      rewrite set_value_same.
      destruct (outputs l); try discriminate Hout; now eexists.
    + assert (Hsame : set_value ui (outputs l) (Text (PyStr out)) w = ui w)
        by (unfold set_value; now rewrite He).
      rewrite Hsame. apply Hwt.
Qed.

Lemma click_writes_its_output_only_witness :
  is_input (outputs generate_ui_btn) = false /\
  (forall w, w <> outputs generate_ui_btn ->
             set_value fresh_ui ui_data_model_output (Text (PyStr (lit "ok"))) w =
             fresh_ui w) /\
  (forall w, is_input w = true ->
             set_value fresh_ui ui_data_model_output (Text (PyStr (lit "ok"))) w =
             fresh_ui w) /\
  (exists out,
      set_value fresh_ui ui_data_model_output (Text (PyStr (lit "ok")))
        (outputs generate_ui_btn) = Text (PyStr out)) /\
  well_typed (set_value fresh_ui ui_data_model_output (Text (PyStr (lit "ok")))).
Proof.
  apply (@click_writes_its_output_only quiet_runtime generate_ui_btn fresh_ui
           _ [] [ChatCompletion
                   (chat_request ui_data_model_system
                      (joined (ui_data_model_fstring quiet_runtime
                                 (PyStr (lit "As a user, I want to log in"))
                                 (PyStr []) (shown_elements []))))]).
  - left. reflexivity.
  - exact fresh_ui_well_typed.
  - reflexivity.
Defined.

(** X13: two clicks in a row chain the stages through the widgets.  After
    a click on the test cases button, a click on the feature file button
    sends a prompt that contains the text now shown in the test cases
    box. *)
Theorem clicks_chain_test_cases_into_feature_file
    (rt : runtime) (ui : ui_state) (t : trace) :
  well_typed ui ->
  exists ui1 t1 out prompt,
    click rt generate_test_cases_btn ui t = (Return ui1, t1) /\
    ui1 test_case_output = Text (PyStr out) /\
    snd (click rt generate_feature_file_btn ui1 t1) =
      t1 ++ [ChatCompletion (chat_request feature_file_system prompt)] /\
    contains prompt out = true.
Proof.
  intros Hwt.
  pose proof (Hwt gherkin_output) as [g Hg].
  pose proof (Hwt platform_input) as [p Hp].
  pose proof (Hwt technology_input) as [tch Htch].
  pose proof (Hwt step_definition_input) as [fmt Hfmt].
  rewrite click_result, (click_test_cases rt ui t Hg Hp Htch).
  unfold generate_test_cases. rewrite complete_run.
  eexists _, _, _, _. split; [reflexivity|].
  split; [apply set_value_same|].
  rewrite click_result.
  rewrite (@click_feature_file rt _ _ _ p fmt (set_value_same _ _ _));
    [| rewrite set_value_other by discriminate; assumption
     | rewrite set_value_other by discriminate; assumption ].
  rewrite generate_feature_file_run, complete_run. cbn [snd].
  split; [reflexivity|].
  rewrite joined_feature_file. cbn [format].
  apply (contains_app feature_file_text0).
Qed.

Lemma clicks_chain_test_cases_into_feature_file_witness :
  exists ui1 t1 out prompt,
    click quiet_runtime generate_test_cases_btn fresh_ui [] = (Return ui1, t1) /\
    ui1 test_case_output = Text (PyStr out) /\
    snd (click quiet_runtime generate_feature_file_btn ui1 t1) =
      t1 ++ [ChatCompletion (chat_request feature_file_system prompt)] /\
    contains prompt out = true.
Proof.
  exact (@clicks_chain_test_cases_into_feature_file quiet_runtime fresh_ui []
           fresh_ui_well_typed).
Defined.

(** ** Start-up *)


Lemma name_eqb_neq (k k' : pystr) : k' <> k -> name_eqb k k' = false.
Proof.
  intros Hne. unfold name_eqb.
  destruct (list_eq_dec N.eq_dec k k') as [->|]; [now elim Hne | reflexivity].
Qed.


